(** * Collaborative whiteboard: the synchronisation core of the [Whiteboard]
    component (components/Whiteboard) as a state machine.

    The component is event driven: every handler runs to completion on the
    browser's single thread.  A handler is a function on the client state;
    the socket is the list of messages emitted so far; the drawing library
    (fabric) appears through the few operations the component calls. *)

From Stdlib Require Import List String Bool Arith ZArith Lia DecimalString.
Import ListNotations.
Open Scope string_scope.
Open Scope list_scope.
Open Scope nat_scope.

Set Implicit Arguments.

(** ** JavaScript values the component handles *)

(** A property value of a drawable object. *)
Inductive Value :=
| VNum (n : Z)
| VStr (s : string)
| VBool (b : bool).

(** The result of a call that may throw, and of a promise that may reject. *)
Inductive Completion (A : Type) :=
| Normal (a : A)
| Throw (err : string).
Arguments Normal {A} a.
Arguments Throw {A} err.

(** A fabric object, and also its serialised form [toObject(['id'])]: the
    type tag, the custom [id] property ([None] is [undefined]) and the
    property bag. *)
Record FabricObject := {
  type : string;
  id : option string;
  props : list (string * Value)
}.

(** [!x] on an identifier: [undefined] and the empty string are falsy. *)
Definition truthy (i : option string) : bool :=
  match i with
  | None => false
  | Some EmptyString => false
  | Some _ => true
  end.

(** [a === b] on identifiers. *)
Definition id_eqb (a b : option string) : bool :=
  match a, b with
  | None, None => true
  | Some x, Some y => String.eqb x y
  | _, _ => false
  end.

(** [obj.toObject(['id'])]: the serialisation that keeps the identifier. *)
Definition toObject_id (o : FabricObject) : FabricObject := o.

(** [obj.toObject()]: the default serialisation has no custom property. *)
Definition toObject (o : FabricObject) : FabricObject :=
  {| type := type o; id := None; props := props o |}.

(** A snapshot, [canvas.toJSON()]: the objects in order and the background. *)
Record Snapshot := {
  snap_objects : list FabricObject;
  snap_background : string
}.

Inductive Tool := pen | eraser | text | select.

Inductive Action := undo | redo | clear.

(** What the client sends: [socketRef.current.emit(name, payload)]. *)
Inductive Message :=
| join_room (roomId password role username : string)
| object_added (roomId : string) (obj : FabricObject)
| object_modified (roomId : string) (obj : FabricObject)
| object_removed (roomId : string) (i : option string)
| canvas_action (roomId : string) (action : Action).

(** What the client may receive.  A payload field that the sender left out is
    [None] ([undefined] after destructuring). *)
Inductive Incoming :=
| in_room_joined
| in_access_denied (msg : string)
| in_object_added (obj : option FabricObject)
| in_object_modified (obj : option FabricObject)
| in_object_removed (i : option string)
| in_drawing (data : Snapshot)
| in_canvas_action (action : Action).

Inductive Level := warn | error.

(** The first argument a handler is called with: nothing, a boolean, or the
    click event React passes to an [onClick] handler. *)
Inductive Arg :=
| NoArg
| BoolArg (b : bool)
| ClickEvent.

(** [(remote = false) => ...] followed by [!remote]: the default applies to a
    missing argument, an event object is truthy. *)
Definition arg_truthy (a : Arg) : bool :=
  match a with
  | NoArg => false
  | BoolArg b => b
  | ClickEvent => true
  end.

(** ** The drawing library *)

(** A registered class: [klass.fromObject(obj)] returns a promise that
    resolves to the live object or rejects. *)
Record Klass := {
  fromObject : FabricObject -> Completion FabricObject
}.

(** What the component takes from its imports: the class registry (a lookup
    may return nothing or throw), the identifier generator, indexed by the
    number of identifiers drawn so far, and the property bag an object has
    after [target.set(obj)], which depends on the class of the target. *)
Class Library := {
  getClass : string -> Completion (option Klass);
  uuidv4 : nat -> string;
  setProperties : FabricObject -> FabricObject -> list (string * Value)
}.

(** ** Client state *)

Record Whiteboard := {
  (* props *)
  roomId : string;
  password : string;
  role : string;
  username : string;
  (* the fabric canvas *)
  objects : list FabricObject;
  backgroundColor : string;
  width : Z;
  height : Z;
  _isRemote : bool;
  _isClearing : bool;
  (* tool state *)
  tool : Tool;
  color : string;
  fontSize : Z;
  fontFamily : string;
  (* history and redoStack, with the refs that mirror them *)
  history : list Snapshot;
  redoStack : list Snapshot;
  (* the socket: messages emitted, oldest first *)
  emitted : list Message;
  (* console.warn and console.error *)
  console : list (Level * string);
  (* identifiers drawn from uuidv4 *)
  uuids : nat;
  (* reconstructions awaited by object:added handlers, oldest first *)
  pending : list (Completion FabricObject)
}.

Definition set_objects (l : list FabricObject) (s : Whiteboard) : Whiteboard :=
  {| roomId := roomId s; password := password s; role := role s;
     username := username s; objects := l;
     backgroundColor := backgroundColor s; width := width s;
     height := height s; _isRemote := _isRemote s;
     _isClearing := _isClearing s; tool := tool s; color := color s;
     fontSize := fontSize s; fontFamily := fontFamily s;
     history := history s; redoStack := redoStack s; emitted := emitted s;
     console := console s; uuids := uuids s; pending := pending s |}.

Definition set_backgroundColor (c : string) (s : Whiteboard) : Whiteboard :=
  {| roomId := roomId s; password := password s; role := role s;
     username := username s; objects := objects s;
     backgroundColor := c; width := width s;
     height := height s; _isRemote := _isRemote s;
     _isClearing := _isClearing s; tool := tool s; color := color s;
     fontSize := fontSize s; fontFamily := fontFamily s;
     history := history s; redoStack := redoStack s; emitted := emitted s;
     console := console s; uuids := uuids s; pending := pending s |}.

Definition set_isRemote (b : bool) (s : Whiteboard) : Whiteboard :=
  {| roomId := roomId s; password := password s; role := role s;
     username := username s; objects := objects s;
     backgroundColor := backgroundColor s; width := width s;
     height := height s; _isRemote := b;
     _isClearing := _isClearing s; tool := tool s; color := color s;
     fontSize := fontSize s; fontFamily := fontFamily s;
     history := history s; redoStack := redoStack s; emitted := emitted s;
     console := console s; uuids := uuids s; pending := pending s |}.

Definition set_isClearing (b : bool) (s : Whiteboard) : Whiteboard :=
  {| roomId := roomId s; password := password s; role := role s;
     username := username s; objects := objects s;
     backgroundColor := backgroundColor s; width := width s;
     height := height s; _isRemote := _isRemote s;
     _isClearing := b; tool := tool s; color := color s;
     fontSize := fontSize s; fontFamily := fontFamily s;
     history := history s; redoStack := redoStack s; emitted := emitted s;
     console := console s; uuids := uuids s; pending := pending s |}.

Definition setTool (t : Tool) (s : Whiteboard) : Whiteboard :=
  {| roomId := roomId s; password := password s; role := role s;
     username := username s; objects := objects s;
     backgroundColor := backgroundColor s; width := width s;
     height := height s; _isRemote := _isRemote s;
     _isClearing := _isClearing s; tool := t; color := color s;
     fontSize := fontSize s; fontFamily := fontFamily s;
     history := history s; redoStack := redoStack s; emitted := emitted s;
     console := console s; uuids := uuids s; pending := pending s |}.

Definition setColor (c : string) (s : Whiteboard) : Whiteboard :=
  {| roomId := roomId s; password := password s; role := role s;
     username := username s; objects := objects s;
     backgroundColor := backgroundColor s; width := width s;
     height := height s; _isRemote := _isRemote s;
     _isClearing := _isClearing s; tool := tool s; color := c;
     fontSize := fontSize s; fontFamily := fontFamily s;
     history := history s; redoStack := redoStack s; emitted := emitted s;
     console := console s; uuids := uuids s; pending := pending s |}.

Definition setHistory (h : list Snapshot) (s : Whiteboard) : Whiteboard :=
  {| roomId := roomId s; password := password s; role := role s;
     username := username s; objects := objects s;
     backgroundColor := backgroundColor s; width := width s;
     height := height s; _isRemote := _isRemote s;
     _isClearing := _isClearing s; tool := tool s; color := color s;
     fontSize := fontSize s; fontFamily := fontFamily s;
     history := h; redoStack := redoStack s; emitted := emitted s;
     console := console s; uuids := uuids s; pending := pending s |}.

Definition setRedoStack (r : list Snapshot) (s : Whiteboard) : Whiteboard :=
  {| roomId := roomId s; password := password s; role := role s;
     username := username s; objects := objects s;
     backgroundColor := backgroundColor s; width := width s;
     height := height s; _isRemote := _isRemote s;
     _isClearing := _isClearing s; tool := tool s; color := color s;
     fontSize := fontSize s; fontFamily := fontFamily s;
     history := history s; redoStack := r; emitted := emitted s;
     console := console s; uuids := uuids s; pending := pending s |}.

(** [socketRef.current.emit(...)]. *)
Definition emit (m : Message) (s : Whiteboard) : Whiteboard :=
  {| roomId := roomId s; password := password s; role := role s;
     username := username s; objects := objects s;
     backgroundColor := backgroundColor s; width := width s;
     height := height s; _isRemote := _isRemote s;
     _isClearing := _isClearing s; tool := tool s; color := color s;
     fontSize := fontSize s; fontFamily := fontFamily s;
     history := history s; redoStack := redoStack s;
     emitted := emitted s ++ [m];
     console := console s; uuids := uuids s; pending := pending s |}.

(** [console.warn(...)] and [console.error(...)]. *)
Definition log (l : Level) (msg : string) (s : Whiteboard) : Whiteboard :=
  {| roomId := roomId s; password := password s; role := role s;
     username := username s; objects := objects s;
     backgroundColor := backgroundColor s; width := width s;
     height := height s; _isRemote := _isRemote s;
     _isClearing := _isClearing s; tool := tool s; color := color s;
     fontSize := fontSize s; fontFamily := fontFamily s;
     history := history s; redoStack := redoStack s; emitted := emitted s;
     console := console s ++ [(l, msg)]; uuids := uuids s;
     pending := pending s |}.

Definition set_uuids (n : nat) (s : Whiteboard) : Whiteboard :=
  {| roomId := roomId s; password := password s; role := role s;
     username := username s; objects := objects s;
     backgroundColor := backgroundColor s; width := width s;
     height := height s; _isRemote := _isRemote s;
     _isClearing := _isClearing s; tool := tool s; color := color s;
     fontSize := fontSize s; fontFamily := fontFamily s;
     history := history s; redoStack := redoStack s; emitted := emitted s;
     console := console s; uuids := n; pending := pending s |}.

Definition set_pending (p : list (Completion FabricObject)) (s : Whiteboard)
  : Whiteboard :=
  {| roomId := roomId s; password := password s; role := role s;
     username := username s; objects := objects s;
     backgroundColor := backgroundColor s; width := width s;
     height := height s; _isRemote := _isRemote s;
     _isClearing := _isClearing s; tool := tool s; color := color s;
     fontSize := fontSize s; fontFamily := fontFamily s;
     history := history s; redoStack := redoStack s; emitted := emitted s;
     console := console s; uuids := uuids s; pending := p |}.

(** ** List helpers for the object collection *)

(** [l.findIndex(p)]: position of the first element that satisfies [p]. *)
Fixpoint find_index {A : Type} (p : A -> bool) (l : list A) : option nat :=
  match l with
  | [] => None
  | x :: r =>
      if p x then Some 0
      else match find_index p r with
           | Some i => Some (S i)
           | None => None
           end
  end.

Fixpoint remove_at {A : Type} (i : nat) (l : list A) : list A :=
  match l, i with
  | [], _ => []
  | _ :: r, 0 => r
  | x :: r, S j => x :: remove_at j r
  end.

Fixpoint replace_at {A : Type} (i : nat) (y : A) (l : list A) : list A :=
  match l, i with
  | [], _ => []
  | _ :: r, 0 => y :: r
  | x :: r, S j => x :: replace_at j y r
  end.

(** Number of objects that carry the identifier [x]. *)
Definition count_id (x : option string) (l : list FabricObject) : nat :=
  List.length (filter (fun o => id_eqb (id o) x) l).

(** [obj.set(key, value)] on the property bag. *)
Fixpoint set_prop (k : string) (v : Value) (ps : list (string * Value))
  : list (string * Value) :=
  match ps with
  | [] => [(k, v)]
  | (k', v') :: r =>
      if String.eqb k k' then (k, v) :: r else (k', v') :: set_prop k v r
  end.

(** [target.set(obj)], as far as the object goes: the type cannot be set,
    the identifier is a plain property and is written, and the property bag
    is the one the library leaves. *)
Definition fabric_set {L : Library} (target obj : FabricObject)
  : FabricObject :=
  {| type := type target;
     id := id obj;
     props := setProperties target obj |}.

(** The snapshot of the empty white canvas. *)
Definition blank : Snapshot :=
  {| snap_objects := []; snap_background := "#fff" |}.

(** [canvas.toJSON()]. *)
Definition toJSON (s : Whiteboard) : Snapshot :=
  {| snap_objects := map toObject (objects s);
     snap_background := backgroundColor s |}.

(** The outcome of a synchronous handler: it returns, or an exception leaves
    it with the state as it was at the throw. *)
Inductive Outcome :=
| Returned (s : Whiteboard)
| Raised (err : string) (s : Whiteboard).

Definition state_of (o : Outcome) : Whiteboard :=
  match o with
  | Returned s => s
  | Raised _ s => s
  end.

Section Client.

Context {L : Library}.

(** *** Canvas listeners (Change Capture) *)

(** First listener on ['object:added']: an object without identifier gets a
    fresh one, written onto the object itself. *)
Definition assignId (target : FabricObject) (s : Whiteboard)
  : FabricObject * Whiteboard :=
  if negb (truthy (id target))
  then ({| type := type target; id := Some (uuidv4 (uuids s));
           props := props target |},
        set_uuids (S (uuids s)) s)
  else (target, s).

Definition emitAdded (target : FabricObject) (s : Whiteboard) : Whiteboard :=
  if _isRemote s then s
  else emit (object_added (roomId s) (toObject_id target)) s.

Definition emitModified (target : FabricObject) (s : Whiteboard) : Whiteboard :=
  if _isRemote s then s
  else emit (object_modified (roomId s) (toObject_id target)) s.

Definition emitRemoved (target : FabricObject) (s : Whiteboard) : Whiteboard :=
  if _isRemote s then s
  else emit (object_removed (roomId s) (id target)) s.

(** *** Canvas operations of the library, with the listeners they fire *)

(** [canvas.add(o)]: the object joins the collection and ['object:added']
    fires; the listeners run in registration order, [assignId] then
    [emitAdded].  The result also gives the object as the listeners left it,
    since the caller keeps a reference to it. *)
Definition canvas_add (o : FabricObject) (s : Whiteboard)
  : FabricObject * Whiteboard :=
  let (o', s1) := assignId o s in
  (o', emitAdded o' (set_objects (objects s1 ++ [o']) s1)).

(** [canvas.remove(target)] for the object at position [i]: it leaves the
    collection and ['object:removed'] fires. *)
Definition canvas_remove (i : nat) (s : Whiteboard) : Whiteboard :=
  match nth_error (objects s) i with
  | Some target => emitRemoved target (set_objects (remove_at i (objects s)) s)
  | None => s
  end.

(** [canvas.clear()]: removes every object, each removal firing
    ['object:removed'], and resets the background. *)
Definition canvas_clear (s : Whiteboard) : Whiteboard :=
  set_backgroundColor ""
    (fold_left (fun st o => emitRemoved o st) (objects s) (set_objects [] s)).

(** Reconstruction of one serialised object through the class registry. *)
Definition enliven (o : FabricObject) : Completion FabricObject :=
  match getClass (type o) with
  | Normal (Some klass) => fromObject klass o
  | Normal None => Throw "No class registered"
  | Throw err => Throw err
  end.

Fixpoint enlivenObjects (l : list FabricObject)
  : Completion (list FabricObject) :=
  match l with
  | [] => Normal []
  | o :: r =>
      match enliven o with
      | Normal o' =>
          match enlivenObjects r with
          | Normal r' => Normal (o' :: r')
          | Throw err => Throw err
          end
      | Throw err => Throw err
      end
  end.

(** The reconstruction phase of a load, as the client state sees it.  The
    function given to [loadFromJSON] is the reviver: the library calls it for
    every object it has rebuilt, in order, before the canvas is touched, and
    never for a snapshot without objects.  A lookup that fails stops the
    phase at its object; a reconstruction that rejects fails the load but
    lets the rest be rebuilt and revived. *)
Fixpoint revive (l : list FabricObject) (reviver : Whiteboard -> Whiteboard)
    (s : Whiteboard) : Whiteboard :=
  match l with
  | [] => s
  | o :: r =>
      match getClass (type o) with
      | Normal (Some klass) =>
          match fromObject klass o with
          | Normal _ => revive r reviver (reviver s)
          | Throw _ => revive r reviver s
          end
      | Normal None => s
      | Throw _ => s
      end
  end.

(** [canvas.loadFromJSON(json, reviver)]: the objects are reconstructed and
    revived; when all of them are rebuilt the collection is cleared and
    refilled and the document properties are set.  When a reconstruction
    fails the load is abandoned and the canvas is untouched. *)
Definition loadFromJSON (json : Snapshot) (reviver : Whiteboard -> Whiteboard)
    (s : Whiteboard) : Whiteboard :=
  let s1 := revive (snap_objects json) reviver s in
  match enlivenObjects (snap_objects json) with
  | Normal objs =>
      set_backgroundColor (snap_background json)
        (fold_left (fun st o => snd (canvas_add o st)) objs
           (canvas_clear s1))
  | Throw _ => s1
  end.

(** [uuidv4()]. *)
Definition fresh (s : Whiteboard) : string * Whiteboard :=
  (uuidv4 (uuids s), set_uuids (S (uuids s)) s).

(** *** Local tools *)

Definition handleToolChange (newTool : Tool) (s : Whiteboard) : Whiteboard :=
  setTool newTool s.

(** ['mouse:down'] listener of the eraser tool; [target] is the position of
    the object under the pointer, if any. *)
Definition handleEraserClick (target : option nat) (s : Whiteboard)
  : Whiteboard :=
  match target with
  | Some i =>
      match nth_error (objects s) i with
      | Some t => canvas_remove i (emit (object_removed (roomId s) (id t)) s)
      | None => s
      end
  | None => s
  end.

(** ['mouse:down'] listener of the text tool, at pointer position [x], [y]. *)
Definition handleTextClick (target : option nat) (x y : Z) (s : Whiteboard)
  : Whiteboard :=
  match target with
  | Some _ => s
  | None =>
      let (u, s1) := fresh s in
      let text :=
        {| type := "IText"; id := Some u;
           props := [("text", VStr "Type here..."); ("left", VNum x);
                     ("top", VNum y); ("fontSize", VNum (fontSize s1));
                     ("fill", VStr (color s1));
                     ("fontFamily", VStr (fontFamily s1));
                     ("padding", VNum 8); ("borderColor", VStr "#4a90e2");
                     ("cornerColor", VStr "#4a90e2"); ("cornerSize", VNum 10);
                     ("transparentCorners", VBool false)] |} in
      let (text', s2) := canvas_add text s1 in
      emit (object_added (roomId s2) (toObject_id text')) s2
  end.

Definition addRectangle (s : Whiteboard) : Whiteboard :=
  let s0 := handleToolChange select s in
  let (u, s1) := fresh s0 in
  let rect :=
    {| type := "Rect"; id := Some u;
       props := [("fill", VStr (color s1)); ("width", VNum 100);
                 ("height", VNum 100);
                 ("left", VNum (width s1 / 2 - 50));
                 ("top", VNum (height s1 / 2 - 50))] |} in
  let (rect', s2) := canvas_add rect s1 in
  emit (object_added (roomId s2) (toObject_id rect')) s2.

Definition addCircle (s : Whiteboard) : Whiteboard :=
  let s0 := handleToolChange select s in
  let (u, s1) := fresh s0 in
  let circle :=
    {| type := "Circle"; id := Some u;
       props := [("fill", VStr (color s1)); ("radius", VNum 50);
                 ("left", VNum (width s1 / 2));
                 ("top", VNum (height s1 / 2))] |} in
  let (circle', s2) := canvas_add circle s1 in
  emit (object_added (roomId s2) (toObject_id circle')) s2.

(** A finished freehand stroke: the brush adds the path to the canvas. *)
Definition draw_path (ps : list (string * Value)) (s : Whiteboard)
  : Whiteboard :=
  snd (canvas_add {| type := "Path"; id := None; props := ps |} s).

(** The user moves, scales or edits the object at position [i]: the library
    updates it and fires ['object:modified']. *)
Definition user_modify (i : nat) (changes : list (string * Value))
    (s : Whiteboard) : Whiteboard :=
  match nth_error (objects s) i with
  | Some t =>
      let t' := {| type := type t; id := id t;
                   props := fold_left
                              (fun ps kv => set_prop (fst kv) (snd kv) ps)
                              changes (props t) |} in
      emitModified t' (set_objects (replace_at i t' (objects s)) s)
  | None => s
  end.

(** *** Socket listeners (remote Operations) *)

(** ['object:added'], up to its [await]: the gate is set, the class looked
    up and the reconstruction started.  Every exception is caught inside the
    handler, and the [finally] block releases the gate. *)
Definition on_object_added_begin (obj : option FabricObject) (s : Whiteboard)
  : Whiteboard :=
  let s1 := set_isRemote true s in
  match obj with
  | None =>
      (* obj.type on undefined throws inside the try block *)
      set_isRemote false (log error "Error restoring object:" s1)
  | Some o =>
      match getClass (type o) with
      | Throw _ => set_isRemote false (log error "Error restoring object:" s1)
      | Normal None =>
          set_isRemote false
            (log warn (String.append "Unknown fabric object type: " (type o)) s1)
      | Normal (Some klass) =>
          set_pending (pending s1 ++ [fromObject klass o]) s1
      end
  end.

(** ['object:added'], from the point where the awaited promise settles with
    [r], in the state the client is in by then. *)
Definition on_object_added_resume (r : Completion FabricObject)
    (s : Whiteboard) : Whiteboard :=
  let s1 :=
    match r with
    | Normal fabricObj =>
        if negb (existsb (fun o => id_eqb (id o) (id fabricObj)) (objects s))
        then snd (canvas_add fabricObj s)
        else s
    | Throw _ => log error "Error restoring object:" s
    end in
  set_isRemote false s1.

(** The awaited reconstruction at position [k] settles. *)
Definition settle (k : nat) (s : Whiteboard) : Whiteboard :=
  match nth_error (pending s) k with
  | Some r => on_object_added_resume r (set_pending (remove_at k (pending s)) s)
  | None => s
  end.

(** ['object:added'] when nothing else runs before its promise settles. *)
Definition on_object_added (obj : option FabricObject) (s : Whiteboard)
  : Whiteboard :=
  settle (List.length (pending s)) (on_object_added_begin obj s).

(** ['object:modified'].  [obj.id] is read inside the predicate of [find]:
    without [obj] the first object looked at raises a TypeError, and an
    empty canvas raises none.  [target.set(obj)] also tries to write the
    type of the payload, which the library refuses with a warning. *)
Definition on_object_modified (obj : option FabricObject) (s : Whiteboard)
  : Outcome :=
  let s1 := set_isRemote true s in
  match obj with
  | None =>
      match objects s1 with
      | [] => Returned (set_isRemote false s1)
      | _ :: _ => Raised "TypeError" s1
      end
  | Some o =>
      match find_index (fun t => id_eqb (id t) (id o)) (objects s1) with
      | Some i =>
          match nth_error (objects s1) i with
          | Some target =>
              Returned
                (set_isRemote false
                   (set_objects
                      (replace_at i (fabric_set target o) (objects s1))
                      (log warn "Setting type has no effect" s1)))
          | None => Returned (set_isRemote false s1)
          end
      | None => Returned (set_isRemote false s1)
      end
  end.

Definition on_object_removed (i : option string) (s : Whiteboard) : Outcome :=
  let s1 := set_isRemote true s in
  match find_index (fun t => id_eqb (id t) i) (objects s1) with
  | Some k => Returned (set_isRemote false (canvas_remove k s1))
  | None => Returned (set_isRemote false s1)
  end.

(** ['drawing']: the full canvas state sent on joining.  The gate is
    released by the reviver. *)
Definition on_drawing (data : Snapshot) (s : Whiteboard) : Whiteboard :=
  loadFromJSON data (fun st => set_isRemote false st) (set_isRemote true s).

(** Dispatch of an incoming message to the listener registered under its
    name.  The listeners are those for ['room-joined'], ['access-denied'],
    ['object:added'], ['object:modified'], ['object:removed'] and
    ['drawing']; a message under any other name finds no listener. *)
Definition receive (m : Incoming) (s : Whiteboard) : Outcome :=
  match m with
  | in_room_joined => Returned s
  | in_access_denied _ => Returned s
  | in_object_added obj => Returned (on_object_added_begin obj s)
  | in_object_modified obj => on_object_modified obj s
  | in_object_removed i => on_object_removed i s
  | in_drawing data => Returned (on_drawing data s)
  | in_canvas_action _ => Returned s
  end.

(** *** Undo, redo, clear (History Coordinator) *)

Definition handleUndo (remote : Arg) (s : Whiteboard) : Whiteboard :=
  let s1 :=
    if 1 <? List.length (history s) then
      match nth_error (history s) (List.length (history s) - 1),
            nth_error (history s) (List.length (history s) - 2) with
      | Some currentState, Some prevState =>
          loadFromJSON prevState
            (fun st =>
               let newHistory := removelast (history st) in
               let newRedoStack := currentState :: redoStack st in
               set_isRemote false
                 (setRedoStack newRedoStack (setHistory newHistory st)))
            (set_isRemote true s)
      | _, _ => s
      end
    else s in
  if negb (arg_truthy remote)
  then emit (canvas_action (roomId s1) undo) s1
  else s1.

Definition handleRedo (remote : Arg) (s : Whiteboard) : Whiteboard :=
  let s1 :=
    if 0 <? List.length (redoStack s) then
      match nth_error (redoStack s) 0 with
      | Some nextState =>
          loadFromJSON nextState
            (fun st =>
               let newHistory := history st ++ [nextState] in
               let newRedoStack := tl (redoStack st) in
               set_isRemote false
                 (setRedoStack newRedoStack (setHistory newHistory st)))
            (set_isRemote true s)
      | None => s
      end
    else s in
  if negb (arg_truthy remote)
  then emit (canvas_action (roomId s1) redo) s1
  else s1.

Definition handleClear (remote : Arg) (s : Whiteboard) : Whiteboard :=
  let s1 := set_isClearing true s in
  let s2 := set_backgroundColor "#fff" (canvas_clear s1) in
  let clearedState := toJSON s2 in
  let newHistory := history s2 ++ [clearedState] in
  let s3 :=
    set_isClearing false (setRedoStack [] (setHistory newHistory s2)) in
  if negb (arg_truthy remote)
  then emit (canvas_action (roomId s3) clear) s3
  else s3.

(** *** The event loop *)

(** The state once the canvas and the socket are set up: an empty white
    canvas, the pen selected, the history holding the snapshot of the empty
    canvas, and ['join-room'] sent. *)
Definition init (r p ro u : string) : Whiteboard :=
  {| roomId := r; password := p; role := ro; username := u;
     objects := []; backgroundColor := "#fff"; width := 800; height := 600;
     _isRemote := false; _isClearing := false;
     tool := pen; color := "#000000"; fontSize := 24; fontFamily := "Arial";
     history := [{| snap_objects := []; snap_background := "#fff" |}];
     redoStack := [];
     emitted := [join_room r p ro u];
     console := []; uuids := 0; pending := [] |}.

(** What can happen to a client. *)
Inductive Event :=
| ToolChange (t : Tool)
| ColorChange (c : string)
| Stroke (ps : list (string * Value))
| MouseDown (target : option nat) (x y : Z)
| ClickRectangle
| ClickCircle
| Transform (i : nat) (changes : list (string * Value))
| ClickUndo
| ClickRedo
| ClickClear
| Receive (m : Incoming)
| Settle (k : nat).

(** One turn of the event loop.  The pen draws only in drawing mode, the
    ['mouse:down'] listeners exist only under their tool, and the three
    history buttons pass their click event to the handler. *)
Definition step (e : Event) (s : Whiteboard) : Whiteboard :=
  match e with
  | ToolChange t => handleToolChange t s
  | ColorChange c => setColor c s
  | Stroke ps =>
      match tool s with
      | pen => draw_path ps s
      | _ => s
      end
  | MouseDown target x y =>
      match tool s with
      | eraser => handleEraserClick target s
      | text => handleTextClick target x y s
      | _ => s
      end
  | ClickRectangle => addRectangle s
  | ClickCircle => addCircle s
  | Transform i changes => user_modify i changes s
  | ClickUndo => handleUndo ClickEvent s
  | ClickRedo => handleRedo ClickEvent s
  | ClickClear => handleClear ClickEvent s
  | Receive m => state_of (receive m s)
  | Settle k => settle k s
  end.

Definition run (es : list Event) (s : Whiteboard) : Whiteboard :=
  fold_left (fun st e => step e st) es s.

Inductive reachable : Whiteboard -> Prop :=
| reach_init : forall r p ro u, reachable (init r p ro u)
| reach_step : forall e s, reachable s -> reachable (step e s).

(** The messages a turn of the event loop puts on the socket. *)
Definition outbox (e : Event) (s : Whiteboard) : list Message :=
  skipn (List.length (emitted s)) (emitted (step e s)).

(** The ways an ['object:added'] payload fails to become an object, each
    with the console entry the handler writes for it: no payload to read the
    type from, a registry lookup that throws, a type tag without a registered
    class, a reconstruction that rejects. *)
Inductive dropped_with : option FabricObject -> Level * string -> Prop :=
| no_payload :
    dropped_with None (error, "Error restoring object:")
| lookup_throws : forall o err,
    getClass (type o) = Throw err ->
    dropped_with (Some o) (error, "Error restoring object:")
| unknown_type : forall o,
    getClass (type o) = Normal None ->
    dropped_with (Some o)
      (warn, String.append "Unknown fabric object type: " (type o))
| reconstruction_throws : forall o klass err,
    getClass (type o) = Normal (Some klass) ->
    fromObject klass o = Throw err ->
    dropped_with (Some o) (error, "Error restoring object:").

(** The two stacks of the History Coordinator. *)
Definition stacks (s : Whiteboard) : list Snapshot * list Snapshot :=
  (history s, redoStack s).

(** What a canvas operation leaves alone: the stacks, the room, the gate,
    and, under a set gate, the socket. *)
Definition frame (s s' : Whiteboard) : Prop :=
  stacks s' = stacks s /\ roomId s' = roomId s /\
  _isRemote s' = _isRemote s /\
  (_isRemote s = true -> emitted s' = emitted s).

(** A local edit of the document that is not an undo, a redo or a clear,
    and the turns of the event loop it takes: the tool is chosen, then the
    canvas is touched. *)
Inductive Edit :=
| stroke (ps : list (string * Value))
| rectangle
| circle
| text_click (x y : Z)
| erase (i : nat)
| transform (i : nat) (changes : list (string * Value)).

Definition edit_events (d : Edit) : list Event :=
  match d with
  | stroke ps => [ToolChange pen; Stroke ps]
  | rectangle => [ClickRectangle]
  | circle => [ClickCircle]
  | text_click x y => [ToolChange text; MouseDown None x y]
  | erase i => [ToolChange eraser; MouseDown (Some i) 0%Z 0%Z]
  | transform i changes => [Transform i changes]
  end.

End Client.

(** ** The relay server *)

Definition is_canvas_action (m : Message) : bool :=
  match m with
  | canvas_action _ _ => true
  | _ => false
  end.

(** The mutating Operations. *)
Definition mutating (m : Message) : bool :=
  match m with
  | object_added _ _ | object_modified _ _ | object_removed _ _ => true
  | _ => false
  end.

Definition message_room (m : Message) : string :=
  match m with
  | join_room r _ _ _ => r
  | object_added r _ => r
  | object_modified r _ => r
  | object_removed r _ => r
  | canvas_action r _ => r
  end.

(** A relayed message as its receivers see it. *)
Definition relayed (m : Message) : option Incoming :=
  match m with
  | join_room _ _ _ _ => None
  | object_added _ obj => Some (in_object_added (Some obj))
  | object_modified _ obj => Some (in_object_modified (Some obj))
  | object_removed _ i => Some (in_object_removed i)
  | canvas_action _ a => Some (in_canvas_action a)
  end.

(** Modelled from the spec: the server is not among the sources.  A
    participant is a connection to one room, with the role it supplied when
    it joined (Access Controller). *)
Record Participant := {
  connection : nat;
  joined : string;
  joined_as : string
}.

(** Modelled from the spec: the ingress of the Replication Channel, which
    the sources do not contain.  A mutating Operation from a participant that
    joined as viewer is rejected; a message for a room other than the
    sender's is ignored; any other message goes to every other participant
    of the sender's room, and never back to its origin. *)
Definition relay (members : list Participant) (sender : Participant)
    (m : Message) : list (nat * Incoming) :=
  if mutating m && String.eqb (joined_as sender) "viewer" then []
  else if negb (String.eqb (message_room m) (joined sender)) then []
  else
    match relayed m with
    | None => []
    | Some i =>
        map (fun p => (connection p, i))
          (filter
             (fun p => String.eqb (joined p) (joined sender) &&
                       negb (Nat.eqb (connection p) (connection sender)))
             members)
    end.

(** The client on connection [c] handles, in order, the deliveries addressed
    to it. *)
Definition deliver {L : Library} (ds : list (nat * Incoming)) (c : nat)
    (s : Whiteboard) : Whiteboard :=
  fold_left
    (fun st d => if Nat.eqb (fst d) c then step (Receive (snd d)) st else st)
    ds s.

(** ** A concrete library, for running the component on examples *)

(** A class whose reconstruction returns the serialised object unchanged. *)
Definition plain_class : Klass := {| fromObject := fun o => Normal o |}.

(** A class whose reconstruction always rejects. *)
Definition broken_class : Klass :=
  {| fromObject := fun _ => Throw "malformed object" |}.

(** The registry of the example library: the four shapes the component
    draws and images, one class that cannot rebuild its objects, nothing
    else. *)
Definition example_getClass (t : string) : Completion (option Klass) :=
  if existsb (String.eqb t) ["Rect"; "Circle"; "IText"; "Path"; "Image"]
  then Normal (Some plain_class)
  else if String.eqb t "Group" then Normal (Some broken_class)
  else Normal None.

Definition example_uuidv4 (n : nat) : string :=
  String.append "uuid-" (NilEmpty.string_of_uint (Nat.to_uint n)).

(** The example library writes the properties of the payload one by one. *)
Definition example_setProperties (target obj : FabricObject)
  : list (string * Value) :=
  fold_left (fun ps kv => set_prop (fst kv) (snd kv) ps)
    (props obj) (props target).

Definition example_library : Library :=
  {| getClass := example_getClass; uuidv4 := example_uuidv4;
     setProperties := example_setProperties |}.

(** An image as a peer would send it; its reconstruction has to load the
    picture. *)
Definition remote_image (i : string) : FabricObject :=
  {| type := "Image"; id := Some i;
     props := [("src", VStr "https://example.org/a.png");
               ("left", VNum 0); ("top", VNum 0)] |}.

(** A rectangle as a peer would send it. *)
Definition remote_rect (i : string) : FabricObject :=
  {| type := "Rect"; id := Some i;
     props := [("fill", VStr "#ff0000"); ("width", VNum 100);
               ("height", VNum 100); ("left", VNum 10); ("top", VNum 20)] |}.

(** The client of room R1 right after start-up. *)
Definition client0 : Whiteboard :=
  init "R1" "" "editor" "Guest".

(** The client of room R1 while the reconstruction of a peer's image is
    awaited: the gate is set and one promise is pending. *)
Definition awaiting : Whiteboard :=
  step (L := example_library)
    (Receive (in_object_added (Some (remote_image "img1")))) client0.

(** The client after a rectangle, a clear and an undo. *)
Definition after_clear_undo : Whiteboard :=
  step (L := example_library) ClickUndo
    (step (L := example_library) ClickClear
       (step (L := example_library) ClickRectangle client0)).

(** A client that joined R1 as viewer, and the room as the server sees it. *)
Definition viewer0 : Whiteboard := init "R1" "" "viewer" "Vic".

Definition alice : Participant :=
  {| connection := 1; joined := "R1"; joined_as := "editor" |}.

Definition vic : Participant :=
  {| connection := 2; joined := "R1"; joined_as := "viewer" |}.

(** The rectangle the button creates first. *)
Definition first_rect : FabricObject :=
  {| type := "Rect"; id := Some "uuid-0";
     props := [("fill", VStr "#000000"); ("width", VNum 100);
               ("height", VNum 100); ("left", VNum 350);
               ("top", VNum 250)] |}.

(** ** Properties *)

Section Properties.

Context {L : Library}.

Lemma skipn_app_exact (A : Type) (l x : list A) :
  skipn (List.length l) (l ++ x) = x.
Proof.
  induction l as [|a l IH]; simpl; auto.
Qed.

Lemma outbox_of (e : Event) (s : Whiteboard) (x : list Message) :
  emitted (step e s) = emitted s ++ x -> outbox e s = x.
Proof.
  intros H. unfold outbox. rewrite H. apply skipn_app_exact.
Qed.

(** With the gate set, each of the three listeners leaves the state as it
    is. *)
Lemma listeners_gated (s : Whiteboard) (target : FabricObject) :
  _isRemote s = true ->
  emitAdded target s = s /\ emitModified target s = s /\
  emitRemoved target s = s.
Proof.
  intros H. unfold emitAdded, emitModified, emitRemoved.
  rewrite H. auto.
Qed.

(** What [canvas.add] puts on the socket, by the gate. *)
Lemma canvas_add_emitted (o : FabricObject) (s : Whiteboard) :
  emitted (snd (canvas_add o s)) =
  if _isRemote s then emitted s
  else emitted s ++ [object_added (roomId s) (fst (canvas_add o s))].
Proof.
  unfold canvas_add, assignId, emitAdded.
  destruct (negb (truthy (id o))); simpl;
    destruct (_isRemote s); reflexivity.
Qed.

Lemma canvas_add_roomId (o : FabricObject) (s : Whiteboard) :
  roomId (snd (canvas_add o s)) = roomId s.
Proof.
  unfold canvas_add, assignId, emitAdded.
  destruct (negb (truthy (id o))); simpl;
    destruct (_isRemote s); reflexivity.
Qed.

Lemma canvas_add_objects (o : FabricObject) (s : Whiteboard) :
  objects (snd (canvas_add o s)) = objects s ++ [fst (canvas_add o s)].
Proof.
  unfold canvas_add, assignId, emitAdded.
  destruct (negb (truthy (id o))); simpl;
    destruct (_isRemote s); reflexivity.
Qed.

Lemma canvas_remove_objects (i : nat) (s : Whiteboard) :
  objects (canvas_remove i s) = remove_at i (objects s).
Proof.
  unfold canvas_remove, emitRemoved.
  destruct (nth_error (objects s) i) as [t|] eqn:E.
  - simpl. destruct (_isRemote s); reflexivity.
  - clear -E. revert i E.
    induction (objects s) as [|a l IH]; intros [|i] E; simpl in *;
      try reflexivity; try discriminate.
    now rewrite <- IH.
Qed.

Lemma canvas_remove_emitted (i : nat) (t : FabricObject) (s : Whiteboard) :
  nth_error (objects s) i = Some t ->
  emitted (canvas_remove i s) =
  if _isRemote s then emitted s
  else emitted s ++ [object_removed (roomId s) (id t)].
Proof.
  intros H. unfold canvas_remove, emitRemoved. rewrite H. simpl.
  destruct (_isRemote s); reflexivity.
Qed.

(** The creating handlers: whatever [canvas.add] emitted, the explicit emit
    follows with the same object. *)
Lemma addRectangle_emitted (s : Whiteboard) :
  exists o,
    objects (addRectangle s) = objects s ++ [o] /\
    emitted (addRectangle s) =
    if _isRemote s then emitted s ++ [object_added (roomId s) o]
    else emitted s ++ [object_added (roomId s) o; object_added (roomId s) o].
Proof.
  unfold addRectangle, handleToolChange, fresh.
  match goal with
  | |- context [canvas_add ?o ?st] =>
      pose proof (canvas_add_emitted o st) as Hem;
      pose proof (canvas_add_roomId o st) as Hroom;
      pose proof (canvas_add_objects o st) as Hobjs;
      destruct (canvas_add o st) as [o' s2]
  end.
  simpl in *. exists o'. split; [exact Hobjs|]. rewrite Hem, Hroom.
  destruct (_isRemote s); [reflexivity|].
  rewrite <- app_assoc. reflexivity.
Qed.

Lemma addCircle_emitted (s : Whiteboard) :
  exists o,
    objects (addCircle s) = objects s ++ [o] /\
    emitted (addCircle s) =
    if _isRemote s then emitted s ++ [object_added (roomId s) o]
    else emitted s ++ [object_added (roomId s) o; object_added (roomId s) o].
Proof.
  unfold addCircle, handleToolChange, fresh.
  match goal with
  | |- context [canvas_add ?o ?st] =>
      pose proof (canvas_add_emitted o st) as Hem;
      pose proof (canvas_add_roomId o st) as Hroom;
      pose proof (canvas_add_objects o st) as Hobjs;
      destruct (canvas_add o st) as [o' s2]
  end.
  simpl in *. exists o'. split; [exact Hobjs|]. rewrite Hem, Hroom.
  destruct (_isRemote s); [reflexivity|].
  rewrite <- app_assoc. reflexivity.
Qed.

Lemma handleTextClick_emitted (x y : Z) (s : Whiteboard) :
  exists o,
    objects (handleTextClick None x y s) = objects s ++ [o] /\
    emitted (handleTextClick None x y s) =
    if _isRemote s then emitted s ++ [object_added (roomId s) o]
    else emitted s ++ [object_added (roomId s) o; object_added (roomId s) o].
Proof.
  unfold handleTextClick, fresh.
  match goal with
  | |- context [canvas_add ?o ?st] =>
      pose proof (canvas_add_emitted o st) as Hem;
      pose proof (canvas_add_roomId o st) as Hroom;
      pose proof (canvas_add_objects o st) as Hobjs;
      destruct (canvas_add o st) as [o' s2]
  end.
  simpl in *. exists o'. split; [exact Hobjs|]. rewrite Hem, Hroom.
  destruct (_isRemote s); [reflexivity|].
  rewrite <- app_assoc. reflexivity.
Qed.

Lemma handleEraserClick_emitted (i : nat) (t : FabricObject) (s : Whiteboard) :
  nth_error (objects s) i = Some t ->
  objects (handleEraserClick (Some i) s) = remove_at i (objects s) /\
  emitted (handleEraserClick (Some i) s) =
  if _isRemote s then emitted s ++ [object_removed (roomId s) (id t)]
  else emitted s ++ [object_removed (roomId s) (id t);
                     object_removed (roomId s) (id t)].
Proof.
  intros H. unfold handleEraserClick. rewrite H. split.
  - now rewrite canvas_remove_objects.
  - rewrite (@canvas_remove_emitted i t) by exact H. simpl.
    destruct (_isRemote s); [reflexivity|].
    rewrite <- app_assoc. reflexivity.
Qed.

Lemma draw_path_emitted (ps : list (string * Value)) (s : Whiteboard) :
  _isRemote s = true -> emitted (draw_path ps s) = emitted s.
Proof.
  intros H. unfold draw_path. rewrite canvas_add_emitted, H. reflexivity.
Qed.

Lemma user_modify_emitted (i : nat) (changes : list (string * Value))
    (s : Whiteboard) :
  _isRemote s = true -> emitted (user_modify i changes s) = emitted s.
Proof.
  intros H. unfold user_modify, emitModified.
  destruct (nth_error (objects s) i); simpl; [rewrite H|]; reflexivity.
Qed.

(** *** Echo suppression (C1) and the doubled emit (C10) *)

(** C1, as amended.  While the Echo Suppression Gate is set
    ([canvas._isRemote] is true), each of the three listeners [emitAdded],
    [emitModified] and [emitRemoved] returns without emitting, so a local
    edit that reaches the socket only through them (a freehand stroke, a
    transformation) emits nothing.  The explicit emits of [addRectangle],
    [addCircle], the text-click handler and the eraser handler do not consult
    the gate: each of these edits emits exactly one Operation, the explicit
    one. *)
Theorem gate_silences_listeners_only (s : Whiteboard)
    (Hgate : _isRemote s = true) :
  (forall target,
      emitAdded target s = s /\ emitModified target s = s /\
      emitRemoved target s = s) /\
  (forall ps, outbox (Stroke ps) s = []) /\
  (forall i changes, outbox (Transform i changes) s = []) /\
  (exists o, outbox ClickRectangle s = [object_added (roomId s) o]) /\
  (exists o, outbox ClickCircle s = [object_added (roomId s) o]) /\
  (forall x y, tool s = text ->
      exists o, outbox (MouseDown None x y) s = [object_added (roomId s) o]) /\
  (forall i t x y, tool s = eraser -> nth_error (objects s) i = Some t ->
      outbox (MouseDown (Some i) x y) s = [object_removed (roomId s) (id t)]).
Proof.
  repeat split.
  - apply listeners_gated; assumption.
  - apply listeners_gated; assumption.
  - apply listeners_gated; assumption.
  - intros ps. apply outbox_of. unfold step.
    destruct (tool s); rewrite ?draw_path_emitted, app_nil_r; auto.
  - intros i changes. apply outbox_of. unfold step.
    rewrite user_modify_emitted, app_nil_r; auto.
  - destruct (addRectangle_emitted s) as (o & _ & Ho). exists o.
    apply outbox_of. unfold step. rewrite Ho, Hgate. reflexivity.
  - destruct (addCircle_emitted s) as (o & _ & Ho). exists o.
    apply outbox_of. unfold step. rewrite Ho, Hgate. reflexivity.
  - intros x y Htool. destruct (handleTextClick_emitted x y s) as (o & _ & Ho).
    exists o. apply outbox_of. unfold step. rewrite Htool, Ho, Hgate. reflexivity.
  - intros i t x y Htool Ht. apply outbox_of. unfold step. rewrite Htool.
    rewrite (proj2 (handleEraserClick_emitted _ _ Ht)), Hgate. reflexivity.
Qed.

(** C10, as amended.  A locally created rectangle, circle or text object
    joins the canvas and is announced by the explicit emit of the creating
    handler, and an eraser click takes the object off the canvas and
    announces the removal by its explicit emit.  When the gate is not set,
    the [emitAdded] or [emitRemoved] listener that [canvas.add] or
    [canvas.remove] fires announces the same mutation as well, with the same
    payload, so the Operation goes out twice; when the gate is set the
    listener is silent and the Operation goes out once. *)
Theorem local_edit_emits_by_gate (s : Whiteboard) :
  (exists o, objects (step ClickRectangle s) = objects s ++ [o] /\
             outbox ClickRectangle s =
             if _isRemote s then [object_added (roomId s) o]
             else [object_added (roomId s) o; object_added (roomId s) o]) /\
  (exists o, objects (step ClickCircle s) = objects s ++ [o] /\
             outbox ClickCircle s =
             if _isRemote s then [object_added (roomId s) o]
             else [object_added (roomId s) o; object_added (roomId s) o]) /\
  (forall x y, tool s = text ->
      exists o, objects (step (MouseDown None x y) s) = objects s ++ [o] /\
                outbox (MouseDown None x y) s =
                if _isRemote s then [object_added (roomId s) o]
                else [object_added (roomId s) o;
                      object_added (roomId s) o]) /\
  (forall i t x y, tool s = eraser -> nth_error (objects s) i = Some t ->
      objects (step (MouseDown (Some i) x y) s) = remove_at i (objects s) /\
      outbox (MouseDown (Some i) x y) s =
      if _isRemote s then [object_removed (roomId s) (id t)]
      else [object_removed (roomId s) (id t);
            object_removed (roomId s) (id t)]).
Proof.
  split; [|split; [|split]].
  - destruct (addRectangle_emitted s) as (o & Hobjs & Ho). exists o.
    split; [exact Hobjs|].
    apply outbox_of. unfold step. rewrite Ho.
    destruct (_isRemote s); reflexivity.
  - destruct (addCircle_emitted s) as (o & Hobjs & Ho). exists o.
    split; [exact Hobjs|].
    apply outbox_of. unfold step. rewrite Ho.
    destruct (_isRemote s); reflexivity.
  - intros x y Htool.
    destruct (handleTextClick_emitted x y s) as (o & Hobjs & Ho).
    exists o. split.
    + unfold step. rewrite Htool. exact Hobjs.
    + apply outbox_of. unfold step. rewrite Htool, Ho.
      destruct (_isRemote s); reflexivity.
  - intros i t x y Htool Ht.
    destruct (handleEraserClick_emitted _ _ Ht) as (Hobjs & He). split.
    + unfold step. rewrite Htool. exact Hobjs.
    + apply outbox_of. unfold step. rewrite Htool, He.
      destruct (_isRemote s); reflexivity.
Qed.

(** *** Remote Operations: idempotent add (C2), unknown targets (C3) *)

Lemma nth_error_app_exact (A : Type) (l : list A) (x : A) :
  nth_error (l ++ [x]) (List.length l) = Some x.
Proof.
  induction l as [|a l IH]; simpl; auto.
Qed.

Lemma remove_at_app_exact (A : Type) (l : list A) (x : A) :
  remove_at (List.length l) (l ++ [x]) = l.
Proof.
  induction l as [|a l IH]; simpl; [reflexivity | now rewrite IH].
Qed.

Lemma find_index_none (A : Type) (p : A -> bool) (l : list A) :
  existsb p l = false -> find_index p l = None.
Proof.
  induction l as [|a l IH]; simpl; [reflexivity|].
  destruct (p a); simpl; [discriminate|].
  intros H. now rewrite (IH H).
Qed.

Lemma count_id_app (x : option string) (l : list FabricObject)
    (o : FabricObject) :
  count_id x (l ++ [o]) =
  count_id x l + (if id_eqb (id o) x then 1 else 0).
Proof.
  unfold count_id. rewrite filter_app, length_app. simpl.
  destruct (id_eqb (id o) x); reflexivity.
Qed.

Lemma count_id_existsb (x : option string) (l : list FabricObject) :
  existsb (fun o => id_eqb (id o) x) l = negb (count_id x l =? 0).
Proof.
  unfold count_id. induction l as [|a l IH]; simpl; [reflexivity|].
  destruct (id_eqb (id a) x); simpl; [reflexivity | exact IH].
Qed.

Lemma id_eqb_refl (x : option string) : id_eqb x x = true.
Proof.
  destruct x as [x|]; simpl; [apply String.eqb_refl | reflexivity].
Qed.

(** A handler that sets the gate, waits on nothing and releases the gate
    leaves a client whose gate was not set exactly as it was. *)
Lemma gate_round_trip (s : Whiteboard) :
  _isRemote s = false ->
  set_isRemote false (set_pending (pending s) (set_isRemote true s)) = s.
Proof.
  destruct s; simpl; intros ->; reflexivity.
Qed.

(** The handler run in one piece, when the class is found: the gate is
    set, and the promise's result is handled with the queue of awaited
    reconstructions as it was. *)
Lemma on_object_added_found (s : Whiteboard) (obj : FabricObject)
    (klass : Klass) :
  getClass (type obj) = Normal (Some klass) ->
  on_object_added (Some obj) s =
  on_object_added_resume (fromObject klass obj)
    (set_pending (pending s) (set_isRemote true s)).
Proof.
  intros H. unfold on_object_added, on_object_added_begin, settle.
  rewrite H. simpl.
  rewrite nth_error_app_exact, remove_at_app_exact. reflexivity.
Qed.

Lemma resume_objects (fabricObj : FabricObject) (s : Whiteboard) :
  truthy (id fabricObj) = true ->
  objects (on_object_added_resume (Normal fabricObj) s) =
  if existsb (fun o => id_eqb (id o) (id fabricObj)) (objects s)
  then objects s else objects s ++ [fabricObj].
Proof.
  intros H. unfold on_object_added_resume, canvas_add, assignId, emitAdded.
  rewrite H.
  destruct (existsb _ (objects s)); simpl; [reflexivity|].
  destruct (_isRemote s); reflexivity.
Qed.

Lemma resume_pending (r : Completion FabricObject) (s : Whiteboard) :
  pending (on_object_added_resume r s) = pending s.
Proof.
  unfold on_object_added_resume, canvas_add, assignId, emitAdded.
  destruct r as [fo|err]; simpl; [|reflexivity].
  destruct (negb (existsb _ (objects s))); simpl; [|reflexivity].
  destruct (negb (truthy (id fo))); simpl;
    destruct (_isRemote s); reflexivity.
Qed.

Lemma resume_count (fabricObj : FabricObject) (s : Whiteboard) :
  truthy (id fabricObj) = true ->
  count_id (id fabricObj) (objects s) <= 1 ->
  count_id (id fabricObj)
    (objects (on_object_added_resume (Normal fabricObj) s)) = 1.
Proof.
  intros Hid Hpre. rewrite resume_objects by assumption.
  rewrite count_id_existsb.
  destruct (count_id (id fabricObj) (objects s) =? 0) eqn:E; simpl.
  - apply Nat.eqb_eq in E.
    rewrite count_id_app, id_eqb_refl, E. reflexivity.
  - apply Nat.eqb_neq in E. lia.
Qed.

Lemma on_object_added_gate (obj : option FabricObject) (s : Whiteboard) :
  _isRemote (on_object_added obj s) = false.
Proof.
  unfold on_object_added, on_object_added_begin, settle.
  destruct obj as [o|]; simpl.
  - destruct (getClass (type o)) as [[k|]|err]; simpl.
    + rewrite nth_error_app_exact. reflexivity.
    + destruct (nth_error (pending s) (List.length (pending s))); reflexivity.
    + destruct (nth_error (pending s) (List.length (pending s))); reflexivity.
  - destruct (nth_error (pending s) (List.length (pending s))); reflexivity.
Qed.

(** C2.  An [object:added] Operation whose payload is reconstructed to an
    object with a proper identifier, applied twice to a canvas that holds
    that identifier at most once: the canvas ends with exactly one object of
    that identifier, and the second application changes nothing at all. *)
Theorem add_twice_is_add_once (s : Whiteboard) (obj fabricObj : FabricObject)
    (klass : Klass)
    (Hclass : getClass (type obj) = Normal (Some klass))
    (Hobj : fromObject klass obj = Normal fabricObj)
    (Hid : truthy (id fabricObj) = true)
    (Hpre : count_id (id fabricObj) (objects s) <= 1) :
  let s1 := on_object_added (Some obj) s in
  let s2 := on_object_added (Some obj) s1 in
  count_id (id fabricObj) (objects s2) = 1 /\ s2 = s1.
Proof.
  intros s1 s2.
  assert (H1 : count_id (id fabricObj) (objects s1) = 1).
  { unfold s1. rewrite (on_object_added_found s obj Hclass), Hobj.
    apply resume_count; assumption. }
  assert (H2 : s2 = s1).
  { unfold s2. rewrite (on_object_added_found s1 obj Hclass), Hobj.
    unfold on_object_added_resume.
    cbn [objects set_pending set_isRemote].
    rewrite count_id_existsb, H1. simpl negb. cbv iota.
    apply gate_round_trip. apply on_object_added_gate. }
  split; [rewrite H2; exact H1 | exact H2].
Qed.

Lemma begin_found (s : Whiteboard) (obj : FabricObject) (klass : Klass) :
  getClass (type obj) = Normal (Some klass) ->
  pending (on_object_added_begin (Some obj) s) =
    pending s ++ [fromObject klass obj] /\
  objects (on_object_added_begin (Some obj) s) = objects s.
Proof.
  intros H. unfold on_object_added_begin. rewrite H. split; reflexivity.
Qed.

Lemma settle_head (r : Completion FabricObject)
    (rest : list (Completion FabricObject)) (s : Whiteboard) :
  pending s = r :: rest ->
  settle 0 s = on_object_added_resume r (set_pending rest s).
Proof.
  intros H. unfold settle. rewrite H. reflexivity.
Qed.

(** The same two Operations when both reconstructions are awaited at once
    and settle one after the other: still one object. *)
Lemma add_twice_interleaved (s : Whiteboard) (obj fabricObj : FabricObject)
    (klass : Klass) :
  getClass (type obj) = Normal (Some klass) ->
  fromObject klass obj = Normal fabricObj ->
  truthy (id fabricObj) = true ->
  count_id (id fabricObj) (objects s) = 0 ->
  pending s = [] ->
  let s' :=
    settle 0 (settle 0 (on_object_added_begin (Some obj)
                          (on_object_added_begin (Some obj) s))) in
  count_id (id fabricObj) (objects s') = 1.
Proof.
  intros Hclass Hobj Hid H0 Hp. cbv zeta.
  destruct (begin_found s obj Hclass) as [Pa Oa].
  remember (on_object_added_begin (Some obj) s) as sa eqn:Ea. clear Ea.
  destruct (begin_found sa obj Hclass) as [Pb Ob].
  remember (on_object_added_begin (Some obj) sa) as sb eqn:Eb. clear Eb.
  rewrite Pa, Hp, Hobj in Pb. simpl in Pb.
  rewrite (settle_head sb Pb).
  assert (Pc : pending (on_object_added_resume (Normal fabricObj)
                          (set_pending [Normal fabricObj] sb)) =
               [Normal fabricObj]) by (now rewrite resume_pending).
  assert (Cc : count_id (id fabricObj)
                 (objects (on_object_added_resume (Normal fabricObj)
                             (set_pending [Normal fabricObj] sb))) = 1).
  { apply resume_count; [assumption|].
    change (objects (set_pending [Normal fabricObj] sb)) with (objects sb).
    rewrite Ob, Oa, H0. lia. }
  remember (on_object_added_resume (Normal fabricObj)
              (set_pending [Normal fabricObj] sb)) as sc eqn:Ec. clear Ec.
  rewrite (settle_head sc Pc).
  apply resume_count; [assumption|].
  change (objects (set_pending [] sc)) with (objects sc).
  rewrite Cc. lia.
Qed.

(** C3.  An [object:modified] or [object:removed] message whose identifier
    matches no object of the canvas: the listener returns normally and the
    object collection is what it was. *)
Theorem unknown_target_is_noop (s : Whiteboard) (x : option string)
    (Hnone : existsb (fun o => id_eqb (id o) x) (objects s) = false) :
  (forall obj, id obj = x ->
     exists s', receive (in_object_modified (Some obj)) s = Returned s' /\
                objects s' = objects s) /\
  (exists s', receive (in_object_removed x) s = Returned s' /\
              objects s' = objects s).
Proof.
  split.
  - intros obj Hx. subst x. simpl. unfold on_object_modified. simpl.
    rewrite (find_index_none _ _ Hnone). eexists. split; reflexivity.
  - simpl. unfold on_object_removed. simpl.
    rewrite (find_index_none _ _ Hnone). eexists. split; reflexivity.
Qed.

(** *** Failed reconstruction (C8) *)

Lemma nth_error_length (A : Type) (l : list A) :
  nth_error l (List.length l) = None.
Proof.
  induction l as [|a l IH]; simpl; auto.
Qed.

Lemma resume_gate (r : Completion FabricObject) (s : Whiteboard) :
  _isRemote (on_object_added_resume r s) = false.
Proof.
  reflexivity.
Qed.

(** C8.  The gate is released at the end of the ['object:added'] handler
    whatever happened, and also when its promise settles after other
    handlers have run.  A payload whose type tag has no registered class, or
    whose lookup or reconstruction throws, is dropped: the canvas, the socket
    and the awaited reconstructions are untouched, one console entry is
    written (a warning for the unknown tag, an error entry for an exception),
    and nothing is raised to the event loop. *)
Theorem failed_reconstruction_is_dropped :
  (forall obj s, _isRemote (on_object_added obj s) = false) /\
  (forall r s, _isRemote (on_object_added_resume r s) = false) /\
  (forall s obj entry, dropped_with obj entry ->
     let s' := on_object_added obj s in
     receive (in_object_added obj) s =
       Returned (on_object_added_begin obj s) /\
     objects s' = objects s /\ emitted s' = emitted s /\
     pending s' = pending s /\ console s' = console s ++ [entry]).
Proof.
  split; [exact on_object_added_gate|].
  split; [exact resume_gate|].
  intros s obj entry Hdrop. cbv zeta. split; [reflexivity|].
  destruct Hdrop as [|o err H|o H|o klass err H Hrej].
  - unfold on_object_added, on_object_added_begin, settle. simpl.
    rewrite nth_error_length. simpl. auto.
  - unfold on_object_added, on_object_added_begin, settle. rewrite H. simpl.
    rewrite nth_error_length. simpl. auto.
  - unfold on_object_added, on_object_added_begin, settle. rewrite H. simpl.
    rewrite nth_error_length. simpl. auto.
  - rewrite (on_object_added_found s o H), Hrej. simpl. auto.
Qed.

(** *** The history stack (C9) *)

Lemma frame_refl (s : Whiteboard) : frame s s.
Proof.
  unfold frame. auto.
Qed.

Lemma frame_trans (a b c : Whiteboard) : frame a b -> frame b c -> frame a c.
Proof.
  unfold frame. intros (H1 & H2 & H3 & H4) (K1 & K2 & K3 & K4).
  repeat split; try congruence.
  intros G. rewrite K4, H4; congruence.
Qed.

Lemma frame_emitRemoved (o : FabricObject) (s : Whiteboard) :
  frame s (emitRemoved o s).
Proof.
  unfold frame, emitRemoved. destruct (_isRemote s) eqn:E; simpl; auto.
  repeat split; auto. discriminate.
Qed.

Lemma frame_canvas_add (o : FabricObject) (s : Whiteboard) :
  frame s (snd (canvas_add o s)).
Proof.
  unfold frame, canvas_add, assignId, emitAdded.
  destruct (negb (truthy (id o))); simpl;
    destruct (_isRemote s) eqn:E; simpl; repeat split; auto; discriminate.
Qed.

Lemma frame_canvas_remove (i : nat) (s : Whiteboard) :
  frame s (canvas_remove i s).
Proof.
  unfold canvas_remove.
  destruct (nth_error (objects s) i) as [t|]; [|apply frame_refl].
  apply frame_trans with (set_objects (remove_at i (objects s)) s).
  - unfold frame. simpl. auto.
  - apply frame_emitRemoved.
Qed.

Lemma frame_fold (A : Type) (f : Whiteboard -> A -> Whiteboard) :
  (forall st a, frame st (f st a)) ->
  forall l s, frame s (fold_left f l s).
Proof.
  intros Hf l. induction l as [|a l IH]; intros s; simpl.
  - apply frame_refl.
  - apply frame_trans with (f s a); [apply Hf | apply IH].
Qed.

Lemma frame_canvas_clear (s : Whiteboard) : frame s (canvas_clear s).
Proof.
  unfold canvas_clear.
  apply frame_trans with (set_objects [] s); [unfold frame; simpl; auto|].
  apply frame_trans
    with (fold_left (fun st o => emitRemoved o st) (objects s)
            (set_objects [] s)).
  - apply frame_fold. intros st a. apply frame_emitRemoved.
  - unfold frame. simpl. auto.
Qed.

(** A reviver that leaves some part of the state alone leaves it alone
    through the whole reconstruction phase. *)
Lemma revive_keeps (A : Type) (f : Whiteboard -> A) (l : list FabricObject)
    (reviver : Whiteboard -> Whiteboard) (s : Whiteboard) :
  (forall st, f (reviver st) = f st) -> f (revive l reviver s) = f s.
Proof.
  intros H. revert s. induction l as [|o l IH]; intros s; simpl;
    [reflexivity|].
  destruct (getClass (type o)) as [[klass|]|err]; try reflexivity.
  destruct (fromObject klass o); rewrite IH; [apply H | reflexivity].
Qed.

Lemma frame_adds (objs : list FabricObject) (s : Whiteboard) :
  frame s (fold_left (fun st o => snd (canvas_add o st)) objs s).
Proof.
  apply frame_fold. intros st a. apply frame_canvas_add.
Qed.

(** A load whose reviver leaves the stacks alone leaves them alone. *)
Lemma stacks_load (json : Snapshot) (reviver : Whiteboard -> Whiteboard)
    (s : Whiteboard) :
  (forall st, stacks (reviver st) = stacks st) ->
  stacks (loadFromJSON json reviver s) = stacks s.
Proof.
  intros H. unfold loadFromJSON.
  destruct (enlivenObjects (snap_objects json)) as [objs|err];
    [|now apply revive_keeps].
  match goal with
  | |- stacks (set_backgroundColor ?c ?x) = _ => change (stacks x = stacks s)
  end.
  destruct (frame_adds objs (canvas_clear (revive (snap_objects json) reviver s)))
    as (-> & _).
  destruct (frame_canvas_clear (revive (snap_objects json) reviver s))
    as (-> & _).
  now apply revive_keeps.
Qed.

(** The blank snapshot has nothing to revive: its load clears the canvas,
    sets the background, and never calls the reviver. *)
Lemma loadFromJSON_blank (reviver : Whiteboard -> Whiteboard)
    (s : Whiteboard) :
  loadFromJSON blank reviver s =
  set_backgroundColor "#fff" (canvas_clear s).
Proof.
  reflexivity.
Qed.

Lemma objects_fold_emitRemoved (l : list FabricObject) (s : Whiteboard) :
  objects (fold_left (fun st o => emitRemoved o st) l s) = objects s.
Proof.
  revert s. induction l as [|o l IH]; intros s; simpl; [reflexivity|].
  rewrite IH. unfold emitRemoved. destruct (_isRemote s); reflexivity.
Qed.

Lemma objects_canvas_clear (s : Whiteboard) : objects (canvas_clear s) = [].
Proof.
  unfold canvas_clear.
  change (objects (fold_left (fun st o => emitRemoved o st) (objects s)
                     (set_objects [] s)) = []).
  now rewrite objects_fold_emitRemoved.
Qed.

Lemma stacks_canvas_clear (s : Whiteboard) :
  stacks (canvas_clear s) = stacks s.
Proof.
  apply frame_canvas_clear.
Qed.

Lemma toJSON_cleared (s : Whiteboard) :
  toJSON (set_backgroundColor "#fff" (canvas_clear s)) = blank.
Proof.
  unfold toJSON, blank. cbn [objects backgroundColor set_backgroundColor].
  now rewrite objects_canvas_clear.
Qed.

Lemma stacks_eq (a b : Whiteboard) :
  stacks a = stacks b -> history a = history b /\ redoStack a = redoStack b.
Proof.
  intros H. split.
  - change (fst (stacks a) = fst (stacks b)). now rewrite H.
  - change (snd (stacks a) = snd (stacks b)). now rewrite H.
Qed.

Lemma stacks_pair (a : Whiteboard) (h r : list Snapshot) :
  stacks a = (h, r) -> history a = h /\ redoStack a = r.
Proof.
  intros H. split.
  - change (fst (stacks a) = h). now rewrite H.
  - change (snd (stacks a) = r). now rewrite H.
Qed.

Ltac stacks_split E :=
  first [apply stacks_eq in E | apply stacks_pair in E];
  let Hh := fresh "Hh" in
  let Hr := fresh "Hr" in
  destruct E as [Hh Hr]; try rewrite Hh; try rewrite Hr.

(** Clear appends the blank snapshot and empties the redo stack. *)
Lemma handleClear_blank (remote : Arg) (s : Whiteboard) :
  stacks (handleClear remote s) = (history s ++ [blank], []).
Proof.
  unfold handleClear. rewrite toJSON_cleared.
  pose proof (stacks_canvas_clear (set_isClearing true s)) as Hs.
  apply stacks_eq in Hs. destruct Hs as [Hh Hr].
  cbn [history redoStack set_isClearing] in Hh, Hr.
  destruct (negb (arg_truthy remote)); unfold stacks;
    cbn [history redoStack emit set_isClearing setRedoStack setHistory
         set_backgroundColor];
    now rewrite Hh.
Qed.

(** What the stacks are in every state the client reaches: the history
    holds blank snapshots only, at least one, and the redo stack is empty. *)
Definition blank_history (s : Whiteboard) : Prop :=
  Forall (eq blank) (history s) /\ 1 <= List.length (history s) /\
  redoStack s = [].

Lemma nth_error_blank (l : list Snapshot) (k : nat) :
  Forall (eq blank) l -> k < List.length l -> nth_error l k = Some blank.
Proof.
  intros H Hk. destruct (nth_error l k) as [x|] eqn:E.
  - rewrite Forall_forall in H. f_equal. symmetry. apply H.
    eapply nth_error_In. exact E.
  - apply nth_error_None in E. lia.
Qed.

(** Undo over a history of blank snapshots: when the guard lets it act it
    reloads the blank snapshot under the gate; the reviver, which would move
    the snapshot and release the gate, is never called. *)
Lemma handleUndo_reached (remote : Arg) (s : Whiteboard) :
  Forall (eq blank) (history s) ->
  handleUndo remote s =
  (let s1 := if 1 <? List.length (history s)
             then set_backgroundColor "#fff"
                    (canvas_clear (set_isRemote true s))
             else s in
   if negb (arg_truthy remote)
   then emit (canvas_action (roomId s1) undo) s1
   else s1).
Proof.
  intros Hb. unfold handleUndo.
  destruct (1 <? List.length (history s)) eqn:G; [|reflexivity].
  apply Nat.ltb_lt in G.
  rewrite !(nth_error_blank Hb) by lia.
  rewrite loadFromJSON_blank. reflexivity.
Qed.

Lemma handleRedo_reached (remote : Arg) (s : Whiteboard) :
  redoStack s = [] ->
  handleRedo remote s =
  (if negb (arg_truthy remote)
   then emit (canvas_action (roomId s) redo) s
   else s).
Proof.
  intros Hr. unfold handleRedo. rewrite Hr. reflexivity.
Qed.

Lemma handleUndo_stacks (remote : Arg) (s : Whiteboard) :
  Forall (eq blank) (history s) -> stacks (handleUndo remote s) = stacks s.
Proof.
  intros Hb. rewrite (handleUndo_reached remote s Hb). cbv zeta.
  pose proof (stacks_canvas_clear (set_isRemote true s)) as Hs.
  destruct (1 <? List.length (history s)), (negb (arg_truthy remote));
    try reflexivity; exact Hs.
Qed.

Lemma handleRedo_stacks (remote : Arg) (s : Whiteboard) :
  redoStack s = [] -> stacks (handleRedo remote s) = stacks s.
Proof.
  intros Hr. rewrite (handleRedo_reached remote s Hr).
  destruct (negb (arg_truthy remote)); reflexivity.
Qed.

(** No listener of the canvas and no socket listener touches the stacks. *)
Lemma stacks_canvas_add (o : FabricObject) (s : Whiteboard) :
  stacks (snd (canvas_add o s)) = stacks s.
Proof.
  apply frame_canvas_add.
Qed.

Lemma stacks_creation (s : Whiteboard) :
  stacks (addRectangle s) = stacks s /\ stacks (addCircle s) = stacks s /\
  forall x y, stacks (handleTextClick None x y s) = stacks s.
Proof.
  unfold addRectangle, addCircle, handleTextClick, handleToolChange, fresh.
  repeat split; intros;
    match goal with
    | |- context [canvas_add ?o ?st] =>
        pose proof (stacks_canvas_add o st) as H;
        destruct (canvas_add o st) as [o' s2]
    end; exact H.
Qed.

Lemma stacks_local_edit (e : Event) (s : Whiteboard) :
  match e with
  | ClickUndo | ClickRedo | ClickClear | Receive _ | Settle _ => True
  | _ => stacks (step e s) = stacks s
  end.
Proof.
  destruct e; try exact I; unfold step.
  - reflexivity.
  - reflexivity.
  - destruct (tool s); try reflexivity. apply stacks_canvas_add.
  - destruct (tool s); try reflexivity.
    + unfold handleEraserClick. destruct target as [i|]; [|reflexivity].
      destruct (nth_error (objects s) i) as [t|]; [|reflexivity].
      match goal with
      | |- stacks (canvas_remove ?i ?st) = _ =>
          destruct (frame_canvas_remove i st) as (H & _); exact H
      end.
    + destruct target as [i|]; [reflexivity|]. apply stacks_creation.
  - apply stacks_creation.
  - apply stacks_creation.
  - unfold user_modify, emitModified.
    destruct (nth_error (objects s) i); [|reflexivity]. simpl.
    destruct (_isRemote s); reflexivity.
Qed.

Lemma stacks_resume (r : Completion FabricObject) (s : Whiteboard) :
  stacks (on_object_added_resume r s) = stacks s.
Proof.
  unfold on_object_added_resume. destruct r as [fo|err]; [|reflexivity].
  destruct (negb (existsb _ (objects s))); [|reflexivity].
  exact (stacks_canvas_add fo s).
Qed.

Lemma stacks_settle (k : nat) (s : Whiteboard) :
  stacks (settle k s) = stacks s.
Proof.
  unfold settle. destruct (nth_error (pending s) k); [|reflexivity].
  now rewrite stacks_resume.
Qed.

Lemma stacks_receive (m : Incoming) (s : Whiteboard) :
  stacks (state_of (receive m s)) = stacks s.
Proof.
  destruct m as [| msg | obj | obj | i | data | a]; simpl; try reflexivity.
  - unfold on_object_added_begin. destruct obj as [o|]; [|reflexivity].
    destruct (getClass (type o)) as [[k|]|err]; reflexivity.
  - unfold on_object_modified.
    destruct obj as [o|]; [|destruct (objects (set_isRemote true s)); reflexivity].
    simpl. destruct (find_index _ (objects s)) as [i|]; [|reflexivity].
    destruct (nth_error (objects s) i); reflexivity.
  - unfold on_object_removed. simpl.
    destruct (find_index _ (objects s)) as [k|]; [|reflexivity]. simpl.
    match goal with
    | |- context [canvas_remove ?i ?st] =>
        destruct (frame_canvas_remove i st) as (H & _)
    end.
    unfold stacks in *. simpl in *. exact H.
  - unfold on_drawing. rewrite stacks_load; reflexivity.
Qed.

(** Every turn of the event loop keeps the stacks as [blank_history] says. *)
Lemma step_blank_history (e : Event) (s : Whiteboard) :
  blank_history s -> blank_history (step e s).
Proof.
  intros (Hb & Hn & Hr).
  assert (Same : stacks (step e s) = stacks s -> blank_history (step e s)).
  { intros E. apply stacks_eq in E. destruct E as [Eh Er].
    unfold blank_history. now rewrite Eh, Er. }
  pose proof (stacks_local_edit e s) as Hl.
  destruct e; cbv iota in Hl; try (apply Same; exact Hl).
  - apply Same. unfold step. now apply handleUndo_stacks.
  - apply Same. unfold step. now apply handleRedo_stacks.
  - unfold step. pose proof (handleClear_blank ClickEvent s) as E.
    apply stacks_pair in E. destruct E as [Eh Er].
    unfold blank_history. rewrite Eh, Er. repeat split.
    + apply Forall_app. split; [exact Hb | repeat constructor].
    + rewrite length_app. simpl. lia.
  - apply Same. apply stacks_receive.
  - apply Same. apply stacks_settle.
Qed.

Lemma reachable_blank_history (s : Whiteboard) :
  reachable s -> blank_history s.
Proof.
  intros Hreach. induction Hreach as [r p ro u | e s Hs IH].
  - unfold blank_history. simpl. repeat split; [repeat constructor | lia].
  - now apply step_blank_history.
Qed.

(** C9.  In every reachable state the history holds at least one snapshot.
    Undo takes at most one snapshot off it, and only off a history of more
    than one; redo never shortens it; clear lengthens it by one.  With a
    single snapshot in the history undo changes neither the canvas nor the
    stacks, and so does redo with an empty redo stack. *)
Theorem history_never_empty (s : Whiteboard) (Hreach : reachable s) :
  1 <= List.length (history s) /\
  (forall remote,
     history (handleUndo remote s) = history s \/
     (1 < List.length (history s) /\
      history (handleUndo remote s) = removelast (history s))) /\
  (forall remote,
     List.length (history s) <= List.length (history (handleRedo remote s))) /\
  (forall remote,
     List.length (history (handleClear remote s)) =
     S (List.length (history s))) /\
  (forall remote, List.length (history s) <= 1 ->
     objects (handleUndo remote s) = objects s /\
     stacks (handleUndo remote s) = stacks s) /\
  (forall remote, redoStack s = [] ->
     objects (handleRedo remote s) = objects s /\
     stacks (handleRedo remote s) = stacks s).
Proof.
  destruct (reachable_blank_history Hreach) as (Hb & Hn & Hr).
  split; [exact Hn|].
  split; [|split; [|split; [|split]]].
  - intros remote. left.
    pose proof (handleUndo_stacks remote s Hb) as E.
    apply stacks_eq in E. tauto.
  - intros remote.
    pose proof (handleRedo_stacks remote s Hr) as E.
    apply stacks_eq in E. destruct E as [-> _]. lia.
  - intros remote. pose proof (handleClear_blank remote s) as E.
    apply stacks_pair in E. destruct E as [-> _].
    rewrite length_app. simpl. lia.
  - intros remote Hlen. unfold handleUndo.
    destruct (1 <? List.length (history s)) eqn:G;
      [apply Nat.ltb_lt in G; lia|].
    destruct (negb (arg_truthy remote)); split; reflexivity.
  - intros remote Hredo. unfold handleRedo. rewrite Hredo. simpl.
    destruct (negb (arg_truthy remote)); unfold stacks; simpl;
      now rewrite Hredo.
Qed.

(** *** Local edits and the stacks (C5, C4) *)

Lemma stacks_edit (d : Edit) (s : Whiteboard) :
  stacks (run (edit_events d) s) = stacks s.
Proof.
  destruct d as [ps | | | x y | i | i changes]; unfold edit_events, run;
    cbn [fold_left].
  - rewrite (stacks_local_edit (Stroke ps)).
    apply (stacks_local_edit (ToolChange pen)).
  - apply (stacks_local_edit ClickRectangle).
  - apply (stacks_local_edit ClickCircle).
  - rewrite (stacks_local_edit (MouseDown None x y)).
    apply (stacks_local_edit (ToolChange text)).
  - rewrite (stacks_local_edit (MouseDown (Some i) 0 0)).
    apply (stacks_local_edit (ToolChange eraser)).
  - apply (stacks_local_edit (Transform i changes)).
Qed.

(** C5, as the code behaves.  A local edit that is not an undo, a redo or a
    clear (stroke, rectangle, circle, text, erase, transformation) leaves
    both stacks as they were: no snapshot is appended to the history and the
    redo stack is not emptied. *)
Theorem edit_leaves_both_stacks (d : Edit) (s : Whiteboard) :
  history (run (edit_events d) s) = history s /\
  redoStack (run (edit_events d) s) = redoStack s.
Proof.
  apply stacks_eq. apply stacks_edit.
Qed.

Lemma run_app (es es' : list Event) (s : Whiteboard) :
  run (es ++ es') s = run es' (run es s).
Proof.
  unfold run. apply fold_left_app.
Qed.

Lemma edits_leave_both_stacks (es : list Edit) (s : Whiteboard) :
  stacks (run (flat_map edit_events es) s) = stacks s.
Proof.
  revert s. induction es as [|d es IH]; intros s; [reflexivity|].
  simpl flat_map. rewrite run_app, IH. apply stacks_edit.
Qed.

Lemma click_undo_single (s : Whiteboard) :
  List.length (history s) = 1 -> step ClickUndo s = s.
Proof.
  intros H. unfold step, handleUndo. rewrite H. reflexivity.
Qed.

Lemma click_redo_empty (s : Whiteboard) :
  redoStack s = [] -> step ClickRedo s = s.
Proof.
  intros H. unfold step, handleRedo. rewrite H. reflexivity.
Qed.

Lemma run_repeat_fixed (e : Event) (n : nat) (s : Whiteboard) :
  step e s = s -> run (repeat e n) s = s.
Proof.
  intros H. induction n as [|n IH]; [reflexivity|].
  simpl. rewrite H. exact IH.
Qed.

(** C4, as the code behaves.  From the initial state, N local edits followed
    by U undos and R redos, for any N, U and R, end in the state the N edits
    produced: the undos and redos change nothing, the history still holds
    the single initial snapshot, and the redo stack is empty. *)
Theorem undo_after_edits_changes_nothing (es : list Edit) (U R : nat)
    (r p ro u : string) :
  let sN := run (flat_map edit_events es) (init r p ro u) in
  let s := run (repeat ClickUndo U ++ repeat ClickRedo R) sN in
  s = sN /\ List.length (history s) = 1 /\ redoStack s = [].
Proof.
  intros sN s.
  destruct (stacks_eq (edits_leave_both_stacks es (init r p ro u)))
    as [Hh Hr].
  fold sN in Hh, Hr. simpl in Hh, Hr.
  assert (Hs : s = sN).
  { unfold s. rewrite run_app.
    rewrite (@run_repeat_fixed ClickUndo U sN)
      by (apply click_undo_single; now rewrite Hh).
    apply run_repeat_fixed. apply click_redo_empty. exact Hr. }
  rewrite Hs, Hh, Hr. auto.
Qed.

(** *** Relayed commands (C6) *)

Lemma fold_emitRemoved_emitted (l : list FabricObject) (s : Whiteboard) :
  exists x,
    emitted (fold_left (fun st o => emitRemoved o st) l s) = emitted s ++ x /\
    existsb is_canvas_action x = false.
Proof.
  revert s. induction l as [|o l IH]; intros s; simpl.
  - exists []. now rewrite app_nil_r.
  - destruct (IH (emitRemoved o s)) as (x & Hx & Hc). rewrite Hx.
    unfold emitRemoved. destruct (_isRemote s); simpl.
    + exists x. auto.
    + exists (object_removed (roomId s) (id o) :: x).
      rewrite <- app_assoc. auto.
Qed.

Lemma clear_under_gate_emitted (s : Whiteboard) :
  emitted (canvas_clear (set_isRemote true s)) = emitted s.
Proof.
  destruct (frame_canvas_clear (set_isRemote true s)) as (_ & _ & _ & H).
  apply H. reflexivity.
Qed.

(** C6, as the code behaves.  The socket has no listener for
    ['canvas-action']: a relayed undo, redo or clear leaves the receiving
    client exactly as it was.  Nor is the command ever sent: the buttons
    hand their click event to the handler as [remote], so in every state the
    client reaches undo and redo put nothing on the socket, and clear puts
    no ['canvas-action'] there. *)
Theorem canvas_action_is_ignored :
  (forall action s, receive (in_canvas_action action) s = Returned s) /\
  (forall s, reachable s ->
     outbox ClickUndo s = [] /\ outbox ClickRedo s = []) /\
  (forall s, existsb is_canvas_action (outbox ClickClear s) = false).
Proof.
  split; [reflexivity|]. split.
  - intros s Hreach.
    destruct (reachable_blank_history Hreach) as (Hb & _ & Hr).
    split; apply outbox_of; rewrite app_nil_r; unfold step.
    + rewrite (handleUndo_reached ClickEvent s Hb). cbn [arg_truthy negb].
      cbv zeta. destruct (1 <? List.length (history s)); [|reflexivity].
      cbn [emitted set_backgroundColor]. apply clear_under_gate_emitted.
    + rewrite (handleRedo_reached ClickEvent s Hr). reflexivity.
  - intros s. unfold outbox, step, handleClear, canvas_clear.
    cbn [arg_truthy negb].
    destruct (fold_emitRemoved_emitted (objects (set_isClearing true s))
                (set_objects [] (set_isClearing true s))) as (x & Hx & Hc).
    simpl in *. rewrite Hx, skipn_app_exact. exact Hc.
Qed.

(** *** Viewers (C7) *)

Lemma deliver_nil (c : nat) (s : Whiteboard) : deliver [] c s = s.
Proof.
  reflexivity.
Qed.

(** C7.  Whatever a client that joined as viewer does, none of the mutating
    Operations it emits passes the server: each is rejected on ingress,
    nothing is delivered to any participant, and every other client's state
    stays as it was. *)
Theorem viewer_operations_rejected (members : list Participant)
    (sender : Participant) (s : Whiteboard) (e : Event)
    (Hjoin : joined_as sender = role s) (Hrole : role s = "viewer") :
  Forall (fun m => mutating m = true -> relay members sender m = [])
    (outbox e s) /\
  flat_map (relay members sender) (filter mutating (outbox e s)) = [] /\
  forall c r,
    deliver (flat_map (relay members sender) (filter mutating (outbox e s)))
      c r = r.
Proof.
  assert (Hrej : forall m, mutating m = true -> relay members sender m = []).
  { intros m Hm. unfold relay. rewrite Hm, Hjoin, Hrole. reflexivity. }
  assert (Hnone : forall l,
             flat_map (relay members sender) (filter mutating l) = []).
  { induction l as [|m l IH]; [reflexivity|]. simpl.
    destruct (mutating m) eqn:Hm; [|exact IH].
    simpl. rewrite (Hrej m Hm), IH. reflexivity. }
  split; [|split].
  - apply Forall_forall. intros m _. apply Hrej.
  - apply Hnone.
  - intros c r. rewrite Hnone. apply deliver_nil.
Qed.

End Properties.

(** ** The component at work *)

Example awaiting_reachable : reachable (L := example_library) awaiting.
Proof.
  unfold awaiting, client0. apply reach_step. apply reach_init.
Qed.

Example awaiting_state :
  _isRemote awaiting = true /\
  pending awaiting = [Normal (remote_image "img1")] /\
  objects awaiting = [].
Proof.
  vm_compute. repeat split.
Qed.

(** Against C1 for the explicit emits.  While the gate is set (a peer's
    image is being reconstructed) the user presses the rectangle button:
    the explicit emit of [addRectangle] puts one Operation on the socket. *)
Lemma explicit_emit_ignores_gate :
  _isRemote awaiting = true /\
  outbox (L := example_library) ClickRectangle awaiting =
  [object_added "R1" first_rect].
Proof.
  vm_compute. split; reflexivity.
Qed.

Lemma gate_silences_listeners_only_witness :
  (forall ps, outbox (L := example_library) (Stroke ps) awaiting = []) /\
  exists o,
    outbox (L := example_library) ClickRectangle awaiting =
    [object_added "R1" o].
Proof.
  pose proof (@gate_silences_listeners_only example_library awaiting)
    as H.
  assert (G : _isRemote awaiting = true) by (vm_compute; reflexivity).
  destruct (H G) as (_ & Hs & _ & Hr & _).
  split; [exact Hs | exact Hr].
Defined.

Example rectangle_emitted_twice :
  outbox (L := example_library) ClickRectangle client0 =
  [object_added "R1" first_rect; object_added "R1" first_rect] /\
  objects (step (L := example_library) ClickRectangle client0) = [first_rect].
Proof.
  vm_compute. split; reflexivity.
Qed.

Lemma add_twice_is_add_once_witness :
  let s1 :=
    on_object_added (L := example_library) (Some (remote_rect "r1")) client0 in
  let s2 :=
    on_object_added (L := example_library) (Some (remote_rect "r1")) s1 in
  count_id (Some "r1") (objects s2) = 1 /\ s2 = s1.
Proof.
  apply (@add_twice_is_add_once example_library client0 (remote_rect "r1")
           (remote_rect "r1") plain_class).
  - vm_compute; reflexivity.
  - vm_compute; reflexivity.
  - vm_compute; reflexivity.
  - vm_compute. lia.
Defined.

Lemma unknown_target_is_noop_witness :
  exists s',
    receive (L := example_library) (in_object_removed (Some "ghost"))
      (step (L := example_library) ClickRectangle client0) = Returned s' /\
    objects s' = objects (step (L := example_library) ClickRectangle client0).
Proof.
  assert (Hnone : existsb (fun o => id_eqb (id o) (Some "ghost"))
                    (objects (step (L := example_library) ClickRectangle
                                client0)) = false) by (vm_compute; reflexivity).
  exact (proj2 (@unknown_target_is_noop example_library _ _ Hnone)).
Defined.

Lemma failed_reconstruction_is_dropped_witness :
  let star := {| type := "Star"; id := Some "s1"; props := [] |} in
  let s' := on_object_added (L := example_library) (Some star) awaiting in
  objects s' = objects awaiting /\
  console s' =
    console awaiting ++ [(warn, "Unknown fabric object type: Star")] /\
  _isRemote s' = false.
Proof.
  intros star s'.
  destruct (@failed_reconstruction_is_dropped example_library)
    as (Hgate & _ & Hdrop).
  assert (D : dropped_with (L := example_library) (Some star)
                (warn, "Unknown fabric object type: Star")).
  { apply (@unknown_type example_library star). vm_compute; reflexivity. }
  destruct (Hdrop awaiting (Some star) _ D) as (_ & Ho & _ & _ & Hc).
  split; [exact Ho|]. split; [exact Hc|]. apply Hgate.
Defined.

Example rejected_reconstruction_logged :
  let group := {| type := "Group"; id := Some "g1"; props := [] |} in
  let s' := on_object_added (L := example_library) (Some group) client0 in
  objects s' = [] /\
  console s' = [(error, "Error restoring object:")] /\
  _isRemote s' = false.
Proof.
  vm_compute. repeat split.
Qed.

Lemma history_never_empty_witness :
  1 <= List.length (history after_clear_undo).
Proof.
  assert (Hreach : reachable (L := example_library) after_clear_undo).
  { unfold after_clear_undo, client0.
    apply reach_step. apply reach_step. apply reach_step. apply reach_init. }
  exact (proj1 (@history_never_empty example_library after_clear_undo Hreach)).
Defined.

(** After a rectangle, a clear and an undo: the undo found two snapshots,
    reloaded the blank one under the gate, and its reviver never ran, so
    no snapshot moved and the gate is still set. *)
Example after_clear_undo_state :
  List.length (history after_clear_undo) = 2 /\
  redoStack after_clear_undo = [] /\
  objects after_clear_undo = [] /\
  _isRemote after_clear_undo = true.
Proof.
  vm_compute. repeat split.
Qed.

(** Against C10 where it says the gate is not engaged for local edits.
    After a rectangle, a clear and an undo, with no peer involved, the gate
    is set; the next rectangle is announced once. *)
Lemma local_edit_under_set_gate :
  _isRemote after_clear_undo = true /\
  outbox (L := example_library) ClickRectangle after_clear_undo =
  [object_added "R1"
     {| type := "Rect"; id := Some "uuid-1"; props := props first_rect |}].
Proof.
  vm_compute. split; reflexivity.
Qed.

(** C4 at N = 1, U = 1, R = 0: after the rectangle the history still has one
    entry, not two, and after the undo the rectangle is still on the canvas,
    which is not the empty document of zero edits. *)
Example undo_keeps_the_rectangle :
  let s1 := step (L := example_library) ClickRectangle client0 in
  let s2 := step (L := example_library) ClickUndo s1 in
  List.length (history s1) = 1 /\ objects s2 = [first_rect] /\
  objects client0 = [].
Proof.
  vm_compute. repeat split.
Qed.

(** C5: after a rectangle the history still holds the blank snapshot
    alone, although the canvas no longer serialises to it. *)
Example edit_appends_no_snapshot :
  let s1 := step (L := example_library) ClickRectangle client0 in
  history s1 = [blank] /\ redoStack s1 = [] /\ toJSON s1 <> blank.
Proof.
  vm_compute. repeat split. discriminate.
Qed.

(** C6: a client whose history holds two snapshots receives a relayed undo
    and stays exactly as it was. *)
Example relayed_undo_does_nothing :
  let s := step (L := example_library) ClickClear client0 in
  List.length (history s) = 2 /\
  step (L := example_library) (Receive (in_canvas_action undo)) s = s.
Proof.
  vm_compute. repeat split.
Qed.

(** C7: the viewer's client does emit, for it never looks at its role; the
    server is what stops the Operations.  The same Operations from an editor
    reach the other participant. *)
Example viewer_client_emits :
  outbox (L := example_library) ClickRectangle viewer0 =
  [object_added "R1" first_rect; object_added "R1" first_rect] /\
  relay [alice; vic] alice (object_added "R1" first_rect) =
  [(2, in_object_added (Some first_rect))].
Proof.
  vm_compute. split; reflexivity.
Qed.

Lemma viewer_operations_rejected_witness :
  flat_map (relay [alice; vic] vic)
    (filter mutating (outbox (L := example_library) ClickRectangle viewer0))
  = [].
Proof.
  assert (Hjoin : joined_as vic = role viewer0) by (vm_compute; reflexivity).
  assert (Hrole : role viewer0 = "viewer") by (vm_compute; reflexivity).
  exact (proj1 (proj2 (@viewer_operations_rejected example_library
                         [alice; vic] vic viewer0 ClickRectangle
                         Hjoin Hrole))).
Defined.

(** * Further properties of the component *)

(** An Operation of the client's own room. *)
Definition own_op (r : string) (m : Message) : bool :=
  mutating m && String.eqb (message_room m) r.

(** What a turn of the event loop may do to the props and the socket: the
    props stay, and the socket gains Operations of the client's own room
    only. *)
Definition extends (s s' : Whiteboard) : Prop :=
  roomId s' = roomId s /\ password s' = password s /\
  role s' = role s /\ username s' = username s /\
  exists x, emitted s' = emitted s ++ x /\ forallb (own_op (roomId s)) x = true.

(** Every object carries a proper identifier. *)
Definition identified (l : list FabricObject) : Prop :=
  Forall (fun o => truthy (id o) = true) l.

(** The client of room R1 after a peer's image started its reconstruction
    and a removal for an unknown object was handled meanwhile. *)
Definition overtaken : Whiteboard :=
  step (L := example_library) (Receive (in_object_removed (Some "ghost")))
    awaiting.

Section RemoteSilence.

Context {L : Library}.

(** *** Remote application and the socket *)

Lemma settle_under_gate_emitted (k : nat) (s : Whiteboard) :
  _isRemote s = true -> emitted (settle k s) = emitted s.
Proof.
  intros G. unfold settle.
  destruct (nth_error (pending s) k) as [r|]; [|reflexivity].
  unfold on_object_added_resume. destruct r as [fo|err]; [|reflexivity].
  destruct (negb (existsb _ _)); [|reflexivity].
  change (emitted (snd (canvas_add fo (set_pending (remove_at k (pending s)) s)))
          = emitted s).
  rewrite canvas_add_emitted. simpl. rewrite G. reflexivity.
Qed.

Lemma removed_emitted (i : option string) (s : Whiteboard) :
  emitted (state_of (receive (in_object_removed i) s)) = emitted s.
Proof.
  simpl. unfold on_object_removed. simpl.
  destruct (find_index _ (objects s)) as [k|]; [|reflexivity]. simpl.
  destruct (frame_canvas_remove k (set_isRemote true s)) as (_ & _ & _ & H).
  apply H. reflexivity.
Qed.

Lemma drawing_empty_emitted (data : Snapshot) (s : Whiteboard) :
  snap_objects data = [] ->
  emitted (state_of (receive (in_drawing data) s)) = emitted s.
Proof.
  intros E. simpl. unfold on_drawing, loadFromJSON. rewrite E.
  cbn [revive enlivenObjects emitted set_backgroundColor fold_left].
  apply clear_under_gate_emitted.
Qed.

Lemma receive_emitted (m : Incoming) (s : Whiteboard) :
  match m with
  | in_drawing _ => True
  | _ => emitted (state_of (receive m s)) = emitted s
  end.
Proof.
  destruct m as [| msg | obj | obj | i | data | a]; try exact I;
    try reflexivity.
  - simpl. unfold on_object_added_begin. destruct obj as [o|]; [|reflexivity].
    destruct (getClass (type o)) as [[k|]|err]; reflexivity.
  - simpl. unfold on_object_modified.
    destruct obj as [o|];
      [|destruct (objects (set_isRemote true s)); reflexivity].
    simpl. destruct (find_index _ (objects s)) as [i|]; [|reflexivity].
    destruct (nth_error (objects s) i); reflexivity.
  - apply removed_emitted.
Qed.

(** X1.  Handling an incoming message puts nothing on the socket, whatever
    the state and the payload, for every message but a ['drawing'] that
    carries objects; neither does a reconstruction that settles while the
    gate is still set. *)
Theorem remote_application_is_silent :
  (forall m s,
     match m with
     | in_drawing data => snap_objects data = [] -> outbox (Receive m) s = []
     | _ => outbox (Receive m) s = []
     end) /\
  (forall k s, _isRemote s = true -> outbox (Settle k) s = []).
Proof.
  split.
  - intros m s. pose proof (receive_emitted m s) as H.
    destruct m; try (apply outbox_of; rewrite app_nil_r; exact H).
    intros E. apply outbox_of. rewrite app_nil_r.
    apply drawing_empty_emitted. exact E.
  - intros k s G. apply outbox_of. rewrite app_nil_r.
    apply settle_under_gate_emitted. exact G.
Qed.

(** X2.  The gate is one flag for all handlers.  When a reconstruction
    settles after another handler has released the gate, and the object is
    new to the canvas, [canvas.add] runs with the gate open: the peer's
    object is added and sent back to the room as if it were a local edit. *)
Theorem late_settle_echoes (s : Whiteboard) (k : nat)
    (fabricObj : FabricObject)
    (Hp : nth_error (pending s) k = Some (Normal fabricObj))
    (Hgate : _isRemote s = false)
    (Hid : truthy (id fabricObj) = true)
    (Hnew : existsb (fun o => id_eqb (id o) (id fabricObj)) (objects s)
            = false) :
  objects (step (Settle k) s) = objects s ++ [fabricObj] /\
  outbox (Settle k) s = [object_added (roomId s) fabricObj].
Proof.
  assert (E : step (Settle k) s =
              set_isRemote false
                (snd (canvas_add fabricObj
                        (set_pending (remove_at k (pending s)) s)))).
  { unfold step, settle. rewrite Hp. unfold on_object_added_resume.
    cbn [objects set_pending]. rewrite Hnew. reflexivity. }
  assert (F : fst (canvas_add fabricObj
                     (set_pending (remove_at k (pending s)) s)) = fabricObj).
  { unfold canvas_add, assignId. rewrite Hid. reflexivity. }
  split.
  - rewrite E.
    change (objects (snd (canvas_add fabricObj
                            (set_pending (remove_at k (pending s)) s)))
            = objects s ++ [fabricObj]).
    rewrite canvas_add_objects, F. reflexivity.
  - apply outbox_of. rewrite E.
    change (emitted (snd (canvas_add fabricObj
                            (set_pending (remove_at k (pending s)) s)))
            = emitted s ++ [object_added (roomId s) fabricObj]).
    rewrite canvas_add_emitted, F. simpl. rewrite Hgate. reflexivity.
Qed.

End RemoteSilence.

Example overtaken_reachable : reachable (L := example_library) overtaken.
Proof.
  unfold overtaken, awaiting, client0.
  apply reach_step. apply reach_step. apply reach_init.
Qed.

Lemma late_settle_echoes_witness :
  objects (step (L := example_library) (Settle 0) overtaken) =
  objects overtaken ++ [remote_image "img1"] /\
  outbox (L := example_library) (Settle 0) overtaken =
  [object_added "R1" (remote_image "img1")].
Proof.
  apply (@late_settle_echoes example_library overtaken 0
           (remote_image "img1")).
  - vm_compute; reflexivity.
  - vm_compute; reflexivity.
  - vm_compute; reflexivity.
  - vm_compute; reflexivity.
Defined.

(** *** What the client sends *)

Section Socket.

Context {L : Library}.

(** The part of the state [extends] speaks of. *)
Definition sock (s : Whiteboard)
  : string * string * string * string * list Message :=
  (roomId s, password s, role s, username s, emitted s).

Lemma extends_sock (a a' b b' : Whiteboard) :
  sock a = sock a' -> sock b = sock b' -> extends a b -> extends a' b'.
Proof.
  unfold sock, extends. intros Ha Hb.
  injection Ha as -> -> -> -> ->. injection Hb as -> -> -> -> ->. auto.
Qed.

Lemma extends_refl (s : Whiteboard) : extends s s.
Proof.
  unfold extends. repeat split. exists []. now rewrite app_nil_r.
Qed.

Lemma extends_trans (a b c : Whiteboard) :
  extends a b -> extends b c -> extends a c.
Proof.
  unfold extends.
  intros (R1 & P1 & O1 & U1 & x & Ex & Fx) (R2 & P2 & O2 & U2 & y & Ey & Fy).
  repeat split; try congruence.
  exists (x ++ y). split.
  - rewrite Ey, Ex, app_assoc. reflexivity.
  - rewrite forallb_app, Fx. rewrite R1 in Fy. rewrite Fy. reflexivity.
Qed.

Lemma extends_emit (m : Message) (s : Whiteboard) :
  own_op (roomId s) m = true -> extends s (emit m s).
Proof.
  intros H. unfold extends. simpl. repeat split.
  exists [m]. split; [reflexivity|]. simpl. now rewrite H.
Qed.

Lemma own_op_added (r : string) (o : FabricObject) :
  own_op r (object_added r o) = true.
Proof.
  unfold own_op. simpl. apply String.eqb_refl.
Qed.

Lemma own_op_modified (r : string) (o : FabricObject) :
  own_op r (object_modified r o) = true.
Proof.
  unfold own_op. simpl. apply String.eqb_refl.
Qed.

Lemma own_op_removed (r : string) (i : option string) :
  own_op r (object_removed r i) = true.
Proof.
  unfold own_op. simpl. apply String.eqb_refl.
Qed.

Lemma extends_emitAdded (o : FabricObject) (s : Whiteboard) :
  extends s (emitAdded o s).
Proof.
  unfold emitAdded. destruct (_isRemote s); [apply extends_refl|].
  apply extends_emit, own_op_added.
Qed.

Lemma extends_emitModified (o : FabricObject) (s : Whiteboard) :
  extends s (emitModified o s).
Proof.
  unfold emitModified. destruct (_isRemote s); [apply extends_refl|].
  apply extends_emit, own_op_modified.
Qed.

Lemma extends_emitRemoved (o : FabricObject) (s : Whiteboard) :
  extends s (emitRemoved o s).
Proof.
  unfold emitRemoved. destruct (_isRemote s); [apply extends_refl|].
  apply extends_emit, own_op_removed.
Qed.

Lemma extends_canvas_add (o : FabricObject) (s : Whiteboard) :
  extends s (snd (canvas_add o s)).
Proof.
  unfold canvas_add, assignId.
  destruct (negb (truthy (id o))); cbn [snd].
  - match goal with
    | |- extends _ (emitAdded ?o' ?st) =>
        apply (@extends_sock st s (emitAdded o' st) (emitAdded o' st));
          [reflexivity | reflexivity | apply extends_emitAdded]
    end.
  - match goal with
    | |- extends _ (emitAdded ?o' ?st) =>
        apply (@extends_sock st s (emitAdded o' st) (emitAdded o' st));
          [reflexivity | reflexivity | apply extends_emitAdded]
    end.
Qed.

Lemma extends_canvas_remove (i : nat) (s : Whiteboard) :
  extends s (canvas_remove i s).
Proof.
  unfold canvas_remove.
  destruct (nth_error (objects s) i) as [t|]; [|apply extends_refl].
  match goal with
  | |- extends _ (emitRemoved ?o' ?st) =>
      apply (@extends_sock st s (emitRemoved o' st) (emitRemoved o' st));
        [reflexivity | reflexivity | apply extends_emitRemoved]
  end.
Qed.

Lemma extends_fold (A : Type) (f : Whiteboard -> A -> Whiteboard) :
  (forall st a, extends st (f st a)) ->
  forall l s, extends s (fold_left f l s).
Proof.
  intros Hf l. induction l as [|a l IH]; intros s; simpl.
  - apply extends_refl.
  - apply extends_trans with (f s a); [apply Hf | apply IH].
Qed.

Lemma extends_canvas_clear (s : Whiteboard) : extends s (canvas_clear s).
Proof.
  unfold canvas_clear.
  match goal with
  | |- extends _ (set_backgroundColor _ (fold_left ?f ?l ?st)) =>
      apply (@extends_sock st s (fold_left f l st)
               (set_backgroundColor "" (fold_left f l st)));
        [reflexivity | reflexivity |]
  end.
  apply extends_fold. intros st a. apply extends_emitRemoved.
Qed.

Lemma extends_loadFromJSON (json : Snapshot)
    (reviver : Whiteboard -> Whiteboard) (s : Whiteboard) :
  (forall st, sock (reviver st) = sock st) ->
  extends s (loadFromJSON json reviver s).
Proof.
  intros Hcb.
  pose proof (revive_keeps sock (snap_objects json) reviver s Hcb) as Hs.
  unfold loadFromJSON.
  remember (revive (snap_objects json) reviver s) as s1 eqn:E1. clear E1.
  destruct (enlivenObjects (snap_objects json)) as [objs|err].
  - match goal with
    | |- extends _ (set_backgroundColor ?c ?x) =>
        apply (@extends_sock s1 s x (set_backgroundColor c x));
          [exact Hs | reflexivity |]
    end.
    apply extends_trans with (canvas_clear s1); [apply extends_canvas_clear|].
    apply extends_fold. intros st a. apply extends_canvas_add.
  - apply (@extends_sock s s s s1); [reflexivity | now symmetry |].
    apply extends_refl.
Qed.

(** A creating handler: a fresh identifier, [canvas.add], the explicit
    emit. *)
Lemma extends_create (o : FabricObject) (s0 s : Whiteboard) :
  sock s0 = sock s ->
  extends s
    (let (o', s2) := canvas_add o s0 in
     emit (object_added (roomId s2) (toObject_id o')) s2).
Proof.
  intros Hs. pose proof (extends_canvas_add o s0) as H.
  destruct (canvas_add o s0) as [o' s2]. cbn [snd] in H.
  apply (@extends_sock s0 s (emit (object_added (roomId s2) (toObject_id o')) s2)
           (emit (object_added (roomId s2) (toObject_id o')) s2));
    [exact Hs | reflexivity |].
  apply extends_trans with s2; [exact H|].
  apply extends_emit, own_op_added.
Qed.

Lemma step_extends (e : Event) (s : Whiteboard) : extends s (step e s).
Proof.
  destruct e as [t | c | ps | target x y | | | i changes | | | | m | k];
    unfold step.
  - apply (@extends_sock s s s); [reflexivity | reflexivity | apply extends_refl].
  - apply (@extends_sock s s s); [reflexivity | reflexivity | apply extends_refl].
  - destruct (tool s); try apply extends_refl. apply extends_canvas_add.
  - destruct (tool s); try apply extends_refl.
    + unfold handleEraserClick. destruct target as [i|]; [|apply extends_refl].
      destruct (nth_error (objects s) i) as [t|]; [|apply extends_refl].
      apply extends_trans with (emit (object_removed (roomId s) (id t)) s).
      * apply extends_emit, own_op_removed.
      * apply extends_canvas_remove.
    + unfold handleTextClick. destruct target as [i|]; [apply extends_refl|].
      unfold fresh. apply extends_create. reflexivity.
  - unfold addRectangle, handleToolChange, fresh.
    apply extends_create. reflexivity.
  - unfold addCircle, handleToolChange, fresh.
    apply extends_create. reflexivity.
  - unfold user_modify.
    destruct (nth_error (objects s) i) as [t|]; [|apply extends_refl].
    match goal with
    | |- extends _ (emitModified ?o' ?st) =>
        apply (@extends_sock st s (emitModified o' st) (emitModified o' st));
          [reflexivity | reflexivity | apply extends_emitModified]
    end.
  - unfold handleUndo. cbn [arg_truthy negb].
    destruct (1 <? List.length (history s)); [|apply extends_refl].
    destruct (nth_error (history s) (List.length (history s) - 1));
      [|apply extends_refl].
    destruct (nth_error (history s) (List.length (history s) - 2));
      [|apply extends_refl].
    match goal with
    | |- extends _ (loadFromJSON ?j ?cb ?st) =>
        apply (@extends_sock st s (loadFromJSON j cb st)
                 (loadFromJSON j cb st));
          [reflexivity | reflexivity | apply extends_loadFromJSON]
    end.
    reflexivity.
  - unfold handleRedo. cbn [arg_truthy negb].
    destruct (0 <? List.length (redoStack s)); [|apply extends_refl].
    destruct (nth_error (redoStack s) 0); [|apply extends_refl].
    match goal with
    | |- extends _ (loadFromJSON ?j ?cb ?st) =>
        apply (@extends_sock st s (loadFromJSON j cb st)
                 (loadFromJSON j cb st));
          [reflexivity | reflexivity | apply extends_loadFromJSON]
    end.
    reflexivity.
  - unfold handleClear. cbn [arg_truthy negb].
    match goal with
    | |- extends _ (set_isClearing false
                      (setRedoStack [] (setHistory ?h
                         (set_backgroundColor ?c (canvas_clear ?st))))) =>
        apply (@extends_sock st s (canvas_clear st)
                 (set_isClearing false
                    (setRedoStack [] (setHistory h
                       (set_backgroundColor c (canvas_clear st))))));
          [reflexivity | reflexivity | apply extends_canvas_clear]
    end.
  - destruct m as [| msg | obj | obj | i | data | a]; simpl;
      try apply extends_refl.
    + unfold on_object_added_begin.
      destruct obj as [o|];
        [destruct (getClass (type o)) as [[kl|]|err]|];
        (apply (@extends_sock s s s); [reflexivity | reflexivity |]);
        apply extends_refl.
    + unfold on_object_modified.
      destruct obj as [o|].
      * cbn [objects set_isRemote].
        destruct (find_index _ (objects s)) as [i|];
          [destruct (nth_error (objects s) i)|];
          (apply (@extends_sock s s s); [reflexivity | reflexivity |]);
          apply extends_refl.
      * destruct (objects (set_isRemote true s));
          (apply (@extends_sock s s s); [reflexivity | reflexivity |]);
          apply extends_refl.
    + unfold on_object_removed. cbn [objects set_isRemote].
      destruct (find_index _ (objects s)) as [k|].
      * cbn [state_of].
        apply (@extends_sock (set_isRemote true s) s
                 (canvas_remove k (set_isRemote true s))
                 (set_isRemote false (canvas_remove k (set_isRemote true s))));
          [reflexivity | reflexivity | apply extends_canvas_remove].
      * apply (@extends_sock s s s); [reflexivity | reflexivity |].
        apply extends_refl.
    + unfold on_drawing.
      match goal with
      | |- extends _ (loadFromJSON ?j ?cb ?st) =>
          apply (@extends_sock st s (loadFromJSON j cb st)
                   (loadFromJSON j cb st));
            [reflexivity | reflexivity | apply extends_loadFromJSON]
      end.
      reflexivity.
  - unfold settle.
    destruct (nth_error (pending s) k) as [r|]; [|apply extends_refl].
    unfold on_object_added_resume. destruct r as [fo|err].
    + destruct (negb (existsb _ _)).
      * match goal with
        | |- extends _ (set_isRemote false (snd (canvas_add ?o ?st))) =>
            apply (@extends_sock st s (snd (canvas_add o st))
                     (set_isRemote false (snd (canvas_add o st))));
              [reflexivity | reflexivity | apply extends_canvas_add]
        end.
      * apply (@extends_sock s s s); [reflexivity | reflexivity |].
        apply extends_refl.
    + apply (@extends_sock s s s); [reflexivity | reflexivity |].
      apply extends_refl.
Qed.

(** X3.  In every reachable state the socket holds the ['join-room'] of the
    set-up, carrying the client's props, followed only by mutating
    Operations addressed to the client's own room.  The client never joins
    twice, never sends a ['canvas-action'], and never writes to another
    room. *)
Theorem client_sends_only_own_operations (s : Whiteboard)
    (Hreach : reachable s) :
  exists ops,
    emitted s =
      join_room (roomId s) (password s) (role s) (username s) :: ops /\
    forallb (own_op (roomId s)) ops = true.
Proof.
  induction Hreach as [r p ro u | e s Hs IH].
  - exists []. split; reflexivity.
  - destruct IH as (ops & E & F).
    destruct (step_extends e s) as (R & P & O & U & x & Ex & Fx).
    exists (ops ++ x). rewrite R, P, O, U, Ex, E. split; [reflexivity|].
    rewrite forallb_app, F, Fx. reflexivity.
Qed.

End Socket.

Lemma client_sends_only_own_operations_witness :
  exists ops,
    emitted after_clear_undo = join_room "R1" "" "editor" "Guest" :: ops /\
    forallb (own_op "R1") ops = true.
Proof.
  assert (Hreach : reachable (L := example_library) after_clear_undo).
  { unfold after_clear_undo, client0.
    apply reach_step. apply reach_step. apply reach_step. apply reach_init. }
  exact (@client_sends_only_own_operations example_library
           after_clear_undo Hreach).
Defined.

(** *** Identifiers on the canvas *)

Section Identifiers.

Context {L : Library}.

(** The generator never returns the empty string. *)
Hypothesis uuid_proper : forall n, truthy (Some (uuidv4 n)) = true.

Lemma id_eqb_eq (a b : option string) : id_eqb a b = true -> a = b.
Proof.
  destruct a as [x|], b as [y|]; simpl; try discriminate; auto.
  intros H. apply String.eqb_eq in H. now subst.
Qed.

Lemma find_index_some (A : Type) (p : A -> bool) (l : list A) (k : nat) :
  find_index p l = Some k ->
  exists t, nth_error l k = Some t /\ p t = true /\
            forall j u, j < k -> nth_error l j = Some u -> p u = false.
Proof.
  revert k. induction l as [|a l IH]; intros k; simpl; [discriminate|].
  destruct (p a) eqn:Pa.
  - intros H. injection H as <-. exists a. repeat split; auto.
    intros j u Hj. lia.
  - destruct (find_index p l) as [i|]; [|discriminate].
    intros H. injection H as <-.
    destruct (IH i eq_refl) as (t & Ht & Pt & Hbefore).
    exists t. repeat split; auto.
    intros [|j] u Hj Hu; simpl in Hu.
    + injection Hu as <-. exact Pa.
    + apply (Hbefore j); [lia | exact Hu].
Qed.

Lemma find_index_exists (A : Type) (p : A -> bool) (l : list A) :
  existsb p l = true -> exists k, find_index p l = Some k.
Proof.
  induction l as [|a l IH]; simpl; [discriminate|].
  destruct (p a); simpl; [now exists 0|].
  intros H. destruct (IH H) as (k & ->). now exists (S k).
Qed.

Lemma Forall_remove_at (A : Type) (P : A -> Prop) (l : list A) (i : nat) :
  Forall P l -> Forall P (remove_at i l).
Proof.
  intros H. revert i. induction H as [|a l Ha Hl IH]; intros [|i]; simpl;
    auto.
Qed.

Lemma Forall_replace_at (A : Type) (P : A -> Prop) (l : list A) (i : nat)
    (y : A) :
  P y -> Forall P l -> Forall P (replace_at i y l).
Proof.
  intros Hy H. revert i. induction H as [|a l Ha Hl IH]; intros [|i]; simpl;
    auto.
Qed.

Lemma canvas_add_identified (o : FabricObject) (s : Whiteboard) :
  truthy (id (fst (canvas_add o s))) = true.
Proof.
  unfold canvas_add, assignId.
  destruct (truthy (id o)) eqn:E; simpl; [exact E | apply uuid_proper].
Qed.

Lemma identified_canvas_add (o : FabricObject) (s : Whiteboard) :
  identified (objects s) -> identified (objects (snd (canvas_add o s))).
Proof.
  intros H. rewrite canvas_add_objects. apply Forall_app. split; [exact H|].
  constructor; [apply canvas_add_identified | constructor].
Qed.

Lemma identified_adds (objs : list FabricObject) (s : Whiteboard) :
  identified (objects s) ->
  identified (objects (fold_left (fun st o => snd (canvas_add o st)) objs s)).
Proof.
  revert s. induction objs as [|o objs IH]; intros s H; simpl; [exact H|].
  apply IH. apply identified_canvas_add. exact H.
Qed.

Lemma objects_emitModified (o : FabricObject) (s : Whiteboard) :
  objects (emitModified o s) = objects s.
Proof.
  unfold emitModified. destruct (_isRemote s); reflexivity.
Qed.

Lemma identified_load (json : Snapshot) (reviver : Whiteboard -> Whiteboard)
    (s : Whiteboard) :
  (forall st, objects (reviver st) = objects st) ->
  identified (objects s) ->
  identified (objects (loadFromJSON json reviver s)).
Proof.
  intros Hcb H. unfold loadFromJSON.
  destruct (enlivenObjects (snap_objects json)) as [objs|err].
  - match goal with
    | |- identified (objects (set_backgroundColor _ ?x)) =>
        change (identified (objects x))
    end.
    apply identified_adds. rewrite objects_canvas_clear. constructor.
  - now rewrite (revive_keeps objects (snap_objects json) reviver s Hcb).
Qed.

Lemma identified_create (o : FabricObject) (s0 : Whiteboard) :
  identified (objects s0) ->
  identified
    (objects (let (o', s2) := canvas_add o s0 in
              emit (object_added (roomId s2) (toObject_id o')) s2)).
Proof.
  intros H. pose proof (identified_canvas_add o s0 H) as H'.
  destruct (canvas_add o s0) as [o' s2]. exact H'.
Qed.

Lemma step_identified (e : Event) (s : Whiteboard) :
  identified (objects s) -> identified (objects (step e s)).
Proof.
  intros H.
  destruct e as [t | c | ps | target x y | | | i changes | | | | m | k];
    unfold step.
  - exact H.
  - exact H.
  - destruct (tool s); try exact H. now apply identified_canvas_add.
  - destruct (tool s); try exact H.
    + unfold handleEraserClick. destruct target as [i|]; [|exact H].
      destruct (nth_error (objects s) i) as [t|]; [|exact H].
      rewrite canvas_remove_objects. now apply Forall_remove_at.
    + unfold handleTextClick. destruct target as [i|]; [exact H|].
      unfold fresh. now apply identified_create.
  - unfold addRectangle, handleToolChange, fresh. now apply identified_create.
  - unfold addCircle, handleToolChange, fresh. now apply identified_create.
  - unfold user_modify.
    destruct (nth_error (objects s) i) as [t|] eqn:E; [|exact H].
    rewrite objects_emitModified. cbn [objects set_objects].
    apply Forall_replace_at; [|exact H]. simpl.
    unfold identified in H. rewrite Forall_forall in H.
    apply H. eapply nth_error_In. exact E.
  - unfold handleUndo. cbn [arg_truthy negb].
    destruct (1 <? List.length (history s)); [|exact H].
    destruct (nth_error (history s) (List.length (history s) - 1));
      [|exact H].
    destruct (nth_error (history s) (List.length (history s) - 2));
      [|exact H].
    apply identified_load; [reflexivity | exact H].
  - unfold handleRedo. cbn [arg_truthy negb].
    destruct (0 <? List.length (redoStack s)); [|exact H].
    destruct (nth_error (redoStack s) 0); [|exact H].
    apply identified_load; [reflexivity | exact H].
  - unfold handleClear. cbn [arg_truthy negb].
    match goal with
    | |- identified (objects (set_isClearing false
                      (setRedoStack [] (setHistory ?h
                         (set_backgroundColor ?c (canvas_clear ?st)))))) =>
        change (identified (objects (canvas_clear st)))
    end.
    rewrite objects_canvas_clear. constructor.
  - destruct m as [| msg | obj | obj | i | data | a]; simpl; try exact H.
    + unfold on_object_added_begin. destruct obj as [o|]; [|exact H].
      destruct (getClass (type o)) as [[kl|]|err]; exact H.
    + unfold on_object_modified.
      destruct obj as [o|];
        [|destruct (objects (set_isRemote true s)) eqn:E; exact H].
      cbn [objects set_isRemote].
      destruct (find_index _ (objects s)) as [i|] eqn:F; [|exact H].
      destruct (find_index_some _ _ F) as (t & Ht & Pt & _).
      rewrite Ht. cbn [state_of objects set_isRemote set_objects log].
      apply Forall_replace_at; [|exact H]. simpl.
      apply id_eqb_eq in Pt. rewrite <- Pt.
      unfold identified in H. rewrite Forall_forall in H.
      apply H. eapply nth_error_In. exact Ht.
    + unfold on_object_removed. cbn [objects set_isRemote].
      destruct (find_index _ (objects s)) as [k|]; [|exact H].
      cbn [state_of objects set_isRemote].
      rewrite canvas_remove_objects. now apply Forall_remove_at.
    + unfold on_drawing. apply identified_load; [reflexivity | exact H].
  - unfold settle.
    destruct (nth_error (pending s) k) as [r|]; [|exact H].
    unfold on_object_added_resume. destruct r as [fo|err]; [|exact H].
    destruct (negb (existsb _ _)); [|exact H].
    cbn [objects set_isRemote].
    apply identified_canvas_add. exact H.
Qed.

(** X4.  Provided the identifier generator never returns the empty string,
    every object on the canvas carries a proper identifier in every
    reachable state: whatever a peer sends, whatever a snapshot holds, an
    object without identifier gets one the moment it is added, and no
    handler takes an identifier away. *)
Theorem every_object_is_identified (s : Whiteboard) (Hreach : reachable s) :
  identified (objects s).
Proof.
  induction Hreach as [r p ro u | e s Hs IH].
  - constructor.
  - apply step_identified. exact IH.
Qed.

End Identifiers.

Lemma example_uuid_proper (n : nat) :
  truthy (Some (uuidv4 (Library := example_library) n)) = true.
Proof.
  reflexivity.
Qed.

(** The client after an image without identifier arrived from a peer and a
    stroke was drawn. *)
Definition anonymous_image_then_stroke : Whiteboard :=
  step (L := example_library) (Stroke [("stroke", VStr "#000000")])
    (step (L := example_library) (Settle 0)
       (step (L := example_library)
          (Receive (in_object_added
                      (Some {| type := "Image"; id := None; props := [] |})))
          client0)).

Lemma every_object_is_identified_witness :
  identified (objects anonymous_image_then_stroke) /\
  List.length (objects anonymous_image_then_stroke) = 2.
Proof.
  split; [|vm_compute; reflexivity].
  apply (@every_object_is_identified example_library example_uuid_proper).
  unfold anonymous_image_then_stroke, client0.
  apply reach_step. apply reach_step. apply reach_step. apply reach_init.
Defined.

(** *** Remote Operations that find their target *)

Section RemoteTargets.

Context {L : Library}.

Lemma id_eqb_neq (a b : option string) : id_eqb a b = false -> a <> b.
Proof.
  intros H E. subst. rewrite id_eqb_refl in H. discriminate.
Qed.

Lemma count_remove_at (x : option string) (l : list FabricObject) (k : nat)
    (t : FabricObject) :
  nth_error l k = Some t -> id_eqb (id t) x = true ->
  S (count_id x (remove_at k l)) = count_id x l.
Proof.
  unfold count_id. revert k. induction l as [|a l IH]; intros [|k] Ht Px;
    simpl in *; try discriminate.
  - injection Ht as ->. now rewrite Px.
  - destruct (id_eqb (id a) x); simpl; now rewrite (IH k Ht Px).
Qed.

Lemma length_remove_at (A : Type) (l : list A) (k : nat) (t : A) :
  nth_error l k = Some t -> S (List.length (remove_at k l)) = List.length l.
Proof.
  revert k. induction l as [|a l IH]; intros [|k] Ht; simpl in *;
    try discriminate; auto.
Qed.

Lemma map_replace_at (A B : Type) (f : A -> B) (l : list A) (k : nat)
    (t y : A) :
  nth_error l k = Some t -> f y = f t ->
  map f (replace_at k y l) = map f l.
Proof.
  revert k. induction l as [|a l IH]; intros [|k] Ht Hf; simpl in *;
    try discriminate.
  - injection Ht as ->. now rewrite Hf.
  - now rewrite (IH k Ht Hf).
Qed.

(** X5.  An [object:removed] message whose identifier is on the canvas
    takes off exactly one object, the first one that carries the identifier:
    the others stay in place and in order, and the gate is released. *)
Theorem remove_takes_first_match (s : Whiteboard) (x : option string)
    (Hsome : existsb (fun o => id_eqb (id o) x) (objects s) = true) :
  exists k t s',
    receive (in_object_removed x) s = Returned s' /\
    nth_error (objects s) k = Some t /\ id t = x /\
    (forall j u, j < k -> nth_error (objects s) j = Some u -> id u <> x) /\
    objects s' = remove_at k (objects s) /\
    S (count_id x (objects s')) = count_id x (objects s) /\
    S (List.length (objects s')) = List.length (objects s) /\
    _isRemote s' = false.
Proof.
  destruct (find_index_exists _ _ Hsome) as (k & F).
  destruct (find_index_some _ _ F) as (t & Ht & Pt & Hbefore).
  exists k, t. eexists. split.
  { simpl. unfold on_object_removed. cbn [objects set_isRemote].
    rewrite F. reflexivity. }
  cbn [_isRemote objects set_isRemote].
  rewrite canvas_remove_objects. cbn [objects set_isRemote].
  repeat split.
  - exact Ht.
  - apply id_eqb_eq. exact Pt.
  - intros j u Hj Hu. apply id_eqb_neq. apply (Hbefore j u Hj Hu).
  - eapply count_remove_at; eassumption.
  - eapply length_remove_at; eassumption.
Qed.

(** X6.  An [object:modified] message whose identifier is on the canvas
    rewrites exactly one object, the first one that carries the identifier,
    by [target.set(obj)]: the number of objects, their order, their
    identifiers and their types are what they were, and the gate is
    released. *)
Theorem modify_rewrites_first_match (s : Whiteboard) (obj : FabricObject)
    (Hsome : existsb (fun o => id_eqb (id o) (id obj)) (objects s) = true) :
  exists k t s',
    receive (in_object_modified (Some obj)) s = Returned s' /\
    nth_error (objects s) k = Some t /\ id t = id obj /\
    (forall j u, j < k -> nth_error (objects s) j = Some u ->
                 id u <> id obj) /\
    objects s' = replace_at k (fabric_set t obj) (objects s) /\
    map id (objects s') = map id (objects s) /\
    map type (objects s') = map type (objects s) /\
    _isRemote s' = false.
Proof.
  destruct (find_index_exists _ _ Hsome) as (k & F).
  destruct (find_index_some _ _ F) as (t & Ht & Pt & Hbefore).
  exists k, t. eexists. split.
  { simpl. unfold on_object_modified. cbn [objects set_isRemote].
    rewrite F, Ht. reflexivity. }
  cbn [_isRemote objects set_isRemote set_objects].
  repeat split.
  - exact Ht.
  - apply id_eqb_eq. exact Pt.
  - intros j u Hj Hu. apply id_eqb_neq. apply (Hbefore j u Hj Hu).
  - eapply map_replace_at; [eassumption|]. simpl. symmetry.
    apply id_eqb_eq. exact Pt.
  - eapply map_replace_at; [eassumption|]. reflexivity.
Qed.

End RemoteTargets.

Lemma remove_takes_first_match_witness :
  exists k t s',
    receive (L := example_library) (in_object_removed (Some "uuid-0"))
      (step (L := example_library) ClickRectangle client0) = Returned s' /\
    nth_error (objects (step (L := example_library) ClickRectangle client0)) k
      = Some t /\
    objects s' = [].
Proof.
  assert (Hsome : existsb (fun o => id_eqb (id o) (Some "uuid-0"))
                    (objects (step (L := example_library) ClickRectangle
                                client0)) = true)
    by (vm_compute; reflexivity).
  destruct (@remove_takes_first_match example_library _ _ Hsome)
    as (k & t & s' & R & Ht & _ & _ & Ho & _ & Hl & _).
  exists k, t, s'. split; [exact R|]. split; [exact Ht|].
  destruct (objects s') as [|a l]; [reflexivity|].
  exfalso. revert Hl. vm_compute. intros Hl. discriminate Hl.
Defined.

Lemma modify_rewrites_first_match_witness :
  exists k t s',
    receive (L := example_library)
      (in_object_modified
         (Some {| type := "Rect"; id := Some "uuid-0";
                  props := [("left", VNum 40)] |}))
      (step (L := example_library) ClickRectangle client0) = Returned s' /\
    nth_error (objects (step (L := example_library) ClickRectangle client0)) k
      = Some t /\
    map id (objects s') = [Some "uuid-0"].
Proof.
  assert (Hsome : existsb (fun o => id_eqb (id o) (Some "uuid-0"))
                    (objects (step (L := example_library) ClickRectangle
                                client0)) = true)
    by (vm_compute; reflexivity).
  destruct (@modify_rewrites_first_match example_library
              (step (L := example_library) ClickRectangle client0)
              {| type := "Rect"; id := Some "uuid-0";
                 props := [("left", VNum 40)] |} Hsome)
    as (k & t & s' & R & Ht & _ & _ & _ & Hi & _).
  exists k, t, s'. split; [exact R|]. split; [exact Ht|].
  rewrite Hi. vm_compute. reflexivity.
Defined.

(** *** The stacks of the History Coordinator *)

Section Stacks.

Context {L : Library}.

(** X9.  Undo and redo only move snapshots between the two stacks: in every
    reachable state the history followed by the redo stack is the same
    sequence before and after, whether the handler applies or not. *)
Theorem undo_redo_move_snapshots (remote : Arg) (s : Whiteboard)
    (Hreach : reachable s) :
  history (handleUndo remote s) ++ redoStack (handleUndo remote s) =
    history s ++ redoStack s /\
  history (handleRedo remote s) ++ redoStack (handleRedo remote s) =
    history s ++ redoStack s.
Proof.
  destruct (reachable_blank_history Hreach) as (Hb & _ & Hr).
  destruct (stacks_eq (handleUndo_stacks remote s Hb)) as [Uh Ur].
  destruct (stacks_eq (handleRedo_stacks remote s Hr)) as [Rh Rr].
  rewrite Uh, Ur, Rh, Rr. split; reflexivity.
Qed.

Lemma isRemote_canvas_clear (s : Whiteboard) :
  _isRemote (canvas_clear s) = _isRemote s.
Proof.
  apply frame_canvas_clear.
Qed.

(** X10.  Clear, from any state: the canvas is empty and white, the redo
    stack is empty whatever it held, the history has gained exactly the
    snapshot of the empty white canvas, the clearing flag is down again and
    the gate is where it was. *)
Theorem clear_resets (remote : Arg) (s : Whiteboard) :
  let s' := handleClear remote s in
  objects s' = [] /\ backgroundColor s' = "#fff" /\
  history s' = history s ++ [blank] /\ redoStack s' = [] /\
  _isClearing s' = false /\ _isRemote s' = _isRemote s.
Proof.
  cbv zeta.
  destruct (stacks_pair (handleClear_blank remote s)) as [Hh Hr].
  rewrite Hh, Hr. unfold handleClear.
  pose proof (objects_canvas_clear (set_isClearing true s)) as Ho.
  pose proof (isRemote_canvas_clear (set_isClearing true s)) as Hg.
  cbn [_isRemote set_isClearing] in Hg.
  destruct (negb (arg_truthy remote));
    cbn [objects backgroundColor _isRemote _isClearing emit
         set_isClearing setRedoStack setHistory set_backgroundColor];
    rewrite Ho, Hg; repeat split; reflexivity.
Qed.

Lemma fold_emitRemoved_open (l : list FabricObject) (s : Whiteboard) :
  _isRemote s = false ->
  emitted (fold_left (fun st o => emitRemoved o st) l s) =
  emitted s ++ map (fun o => object_removed (roomId s) (id o)) l.
Proof.
  revert s. induction l as [|o l IH]; intros s G; simpl.
  - now rewrite app_nil_r.
  - unfold emitRemoved at 2. rewrite G. rewrite IH by exact G.
    simpl. rewrite <- app_assoc. reflexivity.
Qed.

(** X11.  A local clear with the gate open tells the room object by
    object: [canvas.clear] fires ['object:removed'] for every object, and
    the listener sends one removal for each, in canvas order, and nothing
    else. *)
Theorem clear_announces_each_removal (s : Whiteboard)
    (Hgate : _isRemote s = false) :
  outbox ClickClear s =
  map (fun o => object_removed (roomId s) (id o)) (objects s).
Proof.
  apply outbox_of. unfold step, handleClear, canvas_clear.
  cbn [arg_truthy negb].
  cbn [emitted set_isClearing setRedoStack setHistory set_backgroundColor].
  rewrite fold_emitRemoved_open by exact Hgate. reflexivity.
Qed.

(** X12.  The only snapshots the client ever stores are taken of an empty
    canvas, at start-up and after a clear, and the redo stack is never
    filled.  So in every reachable state an undo that applies reloads a
    snapshot without objects: the canvas is left empty and white whatever
    was drawn, and since the function given to [loadFromJSON] runs once per
    rebuilt object it never runs, so no snapshot moves and the gate stays
    set, which silences the listeners for the strokes that follow.  A redo
    finds nothing to redo and leaves the canvas, the gate and the stacks as
    they are. *)
Theorem undo_blanks_canvas_under_gate (s : Whiteboard)
    (Hreach : reachable s) :
  Forall (eq blank) (history s) /\ redoStack s = [] /\
  (forall remote, 1 < List.length (history s) ->
     let s' := handleUndo remote s in
     objects s' = [] /\ backgroundColor s' = "#fff" /\
     _isRemote s' = true /\ stacks s' = stacks s /\
     (forall ps, outbox (Stroke ps) s' = [])) /\
  (forall remote,
     let s' := handleRedo remote s in
     objects s' = objects s /\ backgroundColor s' = backgroundColor s /\
     _isRemote s' = _isRemote s /\ stacks s' = stacks s).
Proof.
  destruct (reachable_blank_history Hreach) as (Hb & _ & Hr).
  split; [exact Hb|]. split; [exact Hr|]. split.
  - intros remote G. cbv zeta.
    assert (Hg : _isRemote (handleUndo remote s) = true).
    { rewrite (handleUndo_reached remote s Hb). cbv zeta.
      apply Nat.ltb_lt in G. rewrite G.
      pose proof (isRemote_canvas_clear (set_isRemote true s)) as Hc.
      destruct (negb (arg_truthy remote));
        cbn [_isRemote emit set_backgroundColor]; exact Hc. }
    split; [|split; [|split; [|split]]].
    + rewrite (handleUndo_reached remote s Hb). cbv zeta.
      apply Nat.ltb_lt in G. rewrite G.
      pose proof (objects_canvas_clear (set_isRemote true s)) as Ho.
      destruct (negb (arg_truthy remote));
        cbn [objects emit set_backgroundColor]; exact Ho.
    + rewrite (handleUndo_reached remote s Hb). cbv zeta.
      apply Nat.ltb_lt in G. rewrite G.
      destruct (negb (arg_truthy remote)); reflexivity.
    + exact Hg.
    + now apply handleUndo_stacks.
    + intros ps. apply outbox_of. rewrite app_nil_r. unfold step.
      destruct (tool (handleUndo remote s)); try reflexivity.
      now apply draw_path_emitted.
  - intros remote. cbv zeta. rewrite (handleRedo_reached remote s Hr).
    destruct (negb (arg_truthy remote)); repeat split.
Qed.

End Stacks.

(** The client after a rectangle, a clear and another rectangle: one object
    on the canvas, two snapshots in the history. *)
Definition drawn_after_clear : Whiteboard :=
  step (L := example_library) ClickRectangle
    (step (L := example_library) ClickClear
       (step (L := example_library) ClickRectangle client0)).

Example drawn_after_clear_reachable :
  reachable (L := example_library) drawn_after_clear.
Proof.
  unfold drawn_after_clear, client0.
  apply reach_step. apply reach_step. apply reach_step. apply reach_init.
Qed.

Example drawn_after_clear_state :
  List.length (objects drawn_after_clear) = 1 /\
  history drawn_after_clear = [blank; blank] /\
  redoStack drawn_after_clear = [].
Proof.
  vm_compute. repeat split.
Qed.

Lemma undo_redo_move_snapshots_witness :
  history (handleUndo (L := example_library) ClickEvent drawn_after_clear) ++
  redoStack (handleUndo (L := example_library) ClickEvent drawn_after_clear) =
  [blank; blank].
Proof.
  destruct (@undo_redo_move_snapshots example_library ClickEvent
              drawn_after_clear drawn_after_clear_reachable) as [Hu _].
  rewrite Hu. vm_compute. reflexivity.
Defined.

Lemma clear_announces_each_removal_witness :
  outbox (L := example_library) ClickClear drawn_after_clear =
  [object_removed "R1" (Some "uuid-1")].
Proof.
  assert (G : _isRemote drawn_after_clear = false)
    by (vm_compute; reflexivity).
  rewrite (@clear_announces_each_removal example_library drawn_after_clear G).
  vm_compute. reflexivity.
Defined.

Lemma undo_blanks_canvas_under_gate_witness :
  objects drawn_after_clear <> [] /\
  _isRemote drawn_after_clear = false /\
  objects (handleUndo (L := example_library) ClickEvent drawn_after_clear)
  = [] /\
  _isRemote (handleUndo (L := example_library) ClickEvent drawn_after_clear)
  = true.
Proof.
  split; [vm_compute; discriminate|].
  split; [vm_compute; reflexivity|].
  destruct (@undo_blanks_canvas_under_gate example_library drawn_after_clear
              drawn_after_clear_reachable) as (_ & _ & Hu & _).
  assert (G : 1 < List.length (history drawn_after_clear))
    by (vm_compute; lia).
  destruct (Hu ClickEvent G) as (Ho & _ & Hg & _).
  split; [exact Ho | exact Hg].
Defined.

(** *** Loading a snapshot *)

Section Loads.

Context {L : Library}.

(** When no object of the list is rebuilt the reviver is never called. *)
Lemma revive_none (l : list FabricObject)
    (reviver : Whiteboard -> Whiteboard) (s : Whiteboard) :
  Forall (fun o => exists err, enliven o = Throw err) l ->
  revive l reviver s = s.
Proof.
  intros H. induction H as [|o l (err & Ho) Hl IH]; simpl; [reflexivity|].
  unfold enliven in Ho.
  destruct (getClass (type o)) as [[klass|]|e]; try reflexivity.
  destruct (fromObject klass o); [discriminate | exact IH].
Qed.

Lemma enlivenObjects_head_fails (o : FabricObject) (l : list FabricObject)
    (err : string) :
  enliven o = Throw err -> enlivenObjects (o :: l) = Throw err.
Proof.
  intros H. simpl. now rewrite H.
Qed.

(** When every object of a list that is not empty is rebuilt, the reviver of
    the ['drawing'] handler has released the gate by the end of the
    reconstruction phase, and has done nothing else. *)
Lemma revive_all (l objs : list FabricObject) (s : Whiteboard) :
  enlivenObjects l = Normal objs ->
  revive l (fun st => set_isRemote false st) s =
  match l with
  | [] => s
  | _ :: _ => set_isRemote false s
  end.
Proof.
  revert objs s. induction l as [|o l IH]; intros objs s H; [reflexivity|].
  simpl in H. unfold enliven in H. simpl.
  destruct (getClass (type o)) as [[klass|]|e]; try discriminate.
  destruct (fromObject klass o) as [o'|e]; [|discriminate].
  destruct (enlivenObjects l) as [r'|e]; [|discriminate].
  rewrite (IH r' (set_isRemote false s) eq_refl).
  destruct l; reflexivity.
Qed.

Lemma gated_stroke_silent (ps : list (string * Value)) (s : Whiteboard) :
  _isRemote s = true -> outbox (Stroke ps) s = [].
Proof.
  intros G. apply outbox_of. rewrite app_nil_r. unfold step.
  destruct (tool s); try reflexivity. now apply draw_path_emitted.
Qed.

Lemma gated_transform_silent (i : nat) (changes : list (string * Value))
    (s : Whiteboard) :
  _isRemote s = true -> outbox (Transform i changes) s = [].
Proof.
  intros G. apply outbox_of. rewrite app_nil_r. unfold step.
  now apply user_modify_emitted.
Qed.

(** X14.  The ['drawing'] handler sets the gate and leaves its release to
    the function it gives to [loadFromJSON], which the library calls once
    per rebuilt object.  When the snapshot has no object that can be
    rebuilt, and in particular when it has no object at all, the function
    is never called: the gate stays set, nothing is sent, the stacks are
    untouched, and from then on the listeners stay silent, so strokes and
    transformations no longer reach the room.  A snapshot without objects
    is loaded all the same, one whose objects fail is abandoned with the
    canvas as it was. *)
Theorem load_without_revival_keeps_gate (s : Whiteboard) (data : Snapshot)
    (Hnone : Forall (fun o => exists err, enliven o = Throw err)
               (snap_objects data)) :
  let s' := step (Receive (in_drawing data)) s in
  _isRemote s' = true /\ emitted s' = emitted s /\ stacks s' = stacks s /\
  (snap_objects data = [] ->
     objects s' = [] /\ backgroundColor s' = snap_background data) /\
  (snap_objects data <> [] -> s' = set_isRemote true s) /\
  (forall ps, outbox (Stroke ps) s' = []) /\
  (forall i changes, outbox (Transform i changes) s' = []).
Proof.
  cbv zeta.
  assert (E : step (Receive (in_drawing data)) s =
              match snap_objects data with
              | [] => set_backgroundColor (snap_background data)
                        (canvas_clear (set_isRemote true s))
              | _ :: _ => set_isRemote true s
              end).
  { unfold step, receive, on_drawing, loadFromJSON. cbn [state_of].
    rewrite (revive_none _ _ Hnone).
    destruct (snap_objects data) as [|o l]; [reflexivity|].
    inversion Hnone as [|? ? (err & Ho) ?]; subst.
    now rewrite (@enlivenObjects_head_fails o l err Ho). }
  assert (G : _isRemote (step (Receive (in_drawing data)) s) = true).
  { rewrite E. destruct (snap_objects data); [|reflexivity].
    exact (isRemote_canvas_clear (set_isRemote true s)). }
  split; [exact G|]. split; [|split; [|split; [|split; [|split]]]].
  - rewrite E. destruct (snap_objects data); [|reflexivity].
    exact (clear_under_gate_emitted s).
  - apply stacks_receive.
  - intros Hnil. rewrite E, Hnil. split; [|reflexivity].
    exact (objects_canvas_clear (set_isRemote true s)).
  - intros Hne. rewrite E. destruct (snap_objects data); congruence.
  - intros ps. now apply gated_stroke_silent.
  - intros i changes. now apply gated_transform_silent.
Qed.

Lemma toObject_canvas_add (o : FabricObject) (s : Whiteboard) :
  toObject (fst (canvas_add o s)) = toObject o.
Proof.
  unfold canvas_add, assignId. destruct (negb (truthy (id o))); reflexivity.
Qed.

Lemma adds_serialised (objs : list FabricObject) (s : Whiteboard) :
  map toObject
    (objects (fold_left (fun st o => snd (canvas_add o st)) objs s)) =
  map toObject (objects s) ++ map toObject objs.
Proof.
  revert s. induction objs as [|o objs IH]; intros s; simpl.
  - now rewrite app_nil_r.
  - rewrite IH, canvas_add_objects, map_app. simpl.
    rewrite toObject_canvas_add, <- app_assoc. reflexivity.
Qed.

Lemma toJSON_eq (a b : Whiteboard) :
  map toObject (objects a) = map toObject (objects b) ->
  backgroundColor a = backgroundColor b -> toJSON a = toJSON b.
Proof.
  unfold toJSON. now intros -> ->.
Qed.

Lemma enlivenObjects_faithful (l : list FabricObject) :
  Forall (fun o => exists o', enliven (toObject o) = Normal o' /\
                              toObject o' = toObject o) l ->
  exists objs, enlivenObjects (map toObject l) = Normal objs /\
               map toObject objs = map toObject l.
Proof.
  intros H. induction H as [|o l (o' & Ho & Ht) Hl (objs & He & Hm)].
  - exists []. split; reflexivity.
  - exists (o' :: objs). simpl. rewrite Ho, He. split; [reflexivity|].
    simpl. now rewrite Ht, Hm.
Qed.

(** The state a ['drawing'] message leaves when every object of its snapshot
    is rebuilt: the canvas is cleared and refilled, under the gate when the
    snapshot has no objects and with the gate released when it has. *)
Lemma on_drawing_rebuilt (data : Snapshot) (objs : list FabricObject)
    (s : Whiteboard) :
  enlivenObjects (snap_objects data) = Normal objs ->
  on_drawing data s =
  set_backgroundColor (snap_background data)
    (fold_left (fun st o => snd (canvas_add o st)) objs
       (canvas_clear
          (set_isRemote (match snap_objects data with
                         | [] => true
                         | _ :: _ => false
                         end) s))).
Proof.
  intros He. unfold on_drawing, loadFromJSON.
  rewrite (revive_all _ _ He), He.
  destruct (snap_objects data); reflexivity.
Qed.

Lemma isRemote_adds (objs : list FabricObject) (s : Whiteboard) :
  _isRemote (fold_left (fun st o => snd (canvas_add o st)) objs s) =
  _isRemote s.
Proof.
  apply frame_adds.
Qed.

(** X15.  A snapshot survives the transfer.  When every object of the
    sender's canvas is reconstructed from its serialised form to an object
    that serialises the same way, the receiver of the ['drawing'] message
    ends with a canvas whose snapshot is the sender's, whatever the receiver
    had on its canvas before, and with its stacks untouched.  The gate is
    released when the snapshot has objects and stays set when it has
    none. *)
Theorem snapshot_round_trip (s0 s : Whiteboard)
    (Hfaithful :
       Forall (fun o => exists o', enliven (toObject o) = Normal o' /\
                                   toObject o' = toObject o) (objects s0)) :
  let s' := step (Receive (in_drawing (toJSON s0))) s in
  toJSON s' = toJSON s0 /\
  List.length (objects s') = List.length (objects s0) /\
  stacks s' = stacks s /\
  _isRemote s' = match objects s0 with
                 | [] => true
                 | _ :: _ => false
                 end.
Proof.
  cbv zeta.
  destruct (enlivenObjects_faithful Hfaithful) as (objs & He & Hm).
  pose proof (@on_drawing_rebuilt (toJSON s0) objs s He) as E.
  cbn [snap_objects snap_background toJSON] in E.
  assert (Ho : map toObject
                 (objects (step (Receive (in_drawing (toJSON s0))) s)) =
               map toObject (objects s0)).
  { unfold step, receive. cbn [state_of]. rewrite E.
    cbn [objects set_backgroundColor].
    rewrite adds_serialised, objects_canvas_clear. simpl. exact Hm. }
  split; [|split; [|split]].
  - apply toJSON_eq; [exact Ho|].
    unfold step, receive. cbn [state_of]. rewrite E. reflexivity.
  - rewrite <- (length_map toObject), Ho. apply length_map.
  - apply stacks_receive.
  - unfold step, receive. cbn [state_of]. rewrite E.
    cbn [_isRemote set_backgroundColor].
    rewrite isRemote_adds, isRemote_canvas_clear.
    destruct (objects s0); reflexivity.
Qed.

(** What a run of [canvas.add] with the gate open puts on the canvas and on
    the socket: every object as the listeners left it, announced once. *)
Lemma adds_open (objs : list FabricObject) (s : Whiteboard) :
  _isRemote s = false ->
  exists added,
    objects (fold_left (fun st o => snd (canvas_add o st)) objs s) =
      objects s ++ added /\
    emitted (fold_left (fun st o => snd (canvas_add o st)) objs s) =
      emitted s ++ map (object_added (roomId s)) added /\
    List.length added = List.length objs.
Proof.
  revert s. induction objs as [|o objs IH]; intros s G.
  - exists []. simpl. now rewrite !app_nil_r.
  - assert (G1 : _isRemote (snd (canvas_add o s)) = false).
    { destruct (frame_canvas_add o s) as (_ & _ & -> & _). exact G. }
    destruct (IH (snd (canvas_add o s)) G1) as (added & Ho & He & Hl).
    exists (fst (canvas_add o s) :: added). simpl.
    rewrite Ho, He, canvas_add_objects, canvas_add_emitted, canvas_add_roomId,
      G, <- !app_assoc.
    repeat split. now rewrite Hl.
Qed.

(** X22.  A ['drawing'] message whose snapshot has objects, all of them
    rebuilt, is sent back to the room object by object.  The function given
    to [loadFromJSON] releases the gate during the reconstruction, before
    the canvas is cleared and refilled, so the listeners announce the
    removal of every object the receiver had and the addition of every
    object of the snapshot, in this order; the gate is released at the
    end. *)
Theorem drawing_is_rebroadcast (s : Whiteboard) (data : Snapshot)
    (objs : list FabricObject)
    (Hrebuilt : enlivenObjects (snap_objects data) = Normal objs)
    (Hobjects : snap_objects data <> []) :
  let s' := step (Receive (in_drawing data)) s in
  outbox (Receive (in_drawing data)) s =
    map (fun o => object_removed (roomId s) (id o)) (objects s) ++
    map (object_added (roomId s)) (objects s') /\
  List.length (objects s') = List.length (snap_objects data) /\
  _isRemote s' = false.
Proof.
  cbv zeta.
  assert (E : step (Receive (in_drawing data)) s =
              set_backgroundColor (snap_background data)
                (fold_left (fun st o => snd (canvas_add o st)) objs
                   (canvas_clear (set_isRemote false s)))).
  { unfold step, receive. cbn [state_of].
    rewrite (on_drawing_rebuilt data s Hrebuilt).
    destruct (snap_objects data); [congruence | reflexivity]. }
  assert (G : _isRemote (canvas_clear (set_isRemote false s)) = false)
    by exact (isRemote_canvas_clear (set_isRemote false s)).
  destruct (@adds_open objs _ G) as (added & Ho & He & Hl).
  rewrite objects_canvas_clear in Ho. simpl in Ho.
  assert (Hc : emitted (canvas_clear (set_isRemote false s)) =
               emitted s ++
               map (fun o => object_removed (roomId s) (id o)) (objects s)).
  { unfold canvas_clear. cbn [emitted set_backgroundColor].
    now rewrite fold_emitRemoved_open. }
  assert (Hr : roomId (canvas_clear (set_isRemote false s)) = roomId s).
  { destruct (frame_canvas_clear (set_isRemote false s)) as (_ & Hr & _).
    exact Hr. }
  rewrite Hc, Hr in He.
  split; [|split].
  - apply outbox_of. rewrite E.
    cbn [emitted objects set_backgroundColor]. rewrite He, Ho.
    now rewrite app_assoc.
  - rewrite E. cbn [objects set_backgroundColor]. rewrite Ho, Hl.
    clear -Hrebuilt. revert objs Hrebuilt.
    induction (snap_objects data) as [|o l IH]; intros objs H; simpl in H.
    + now injection H as <-.
    + destruct (enliven o); [|discriminate].
      destruct (enlivenObjects l) as [r|]; [|discriminate].
      injection H as <-. simpl. now rewrite (IH r eq_refl).
  - rewrite E. cbn [_isRemote set_backgroundColor].
    now rewrite isRemote_adds.
Qed.

End Loads.

Lemma load_without_revival_keeps_gate_witness :
  let s' := step (L := example_library) (Receive (in_drawing blank)) client0 in
  _isRemote s' = true /\
  outbox (L := example_library) (Stroke [("stroke", VStr "#000000")]) s' = [].
Proof.
  intros s'.
  assert (Hnone : Forall (fun o => exists err,
                            enliven (L := example_library) o = Throw err)
                    (snap_objects blank))
    by constructor.
  destruct (@load_without_revival_keeps_gate example_library client0 blank
              Hnone) as (G & _ & _ & _ & _ & Hs & _).
  fold s' in G, Hs. split; [exact G | apply Hs].
Defined.

Lemma snapshot_round_trip_witness :
  let sender := step (L := example_library) ClickRectangle client0 in
  let s' :=
    step (L := example_library) (Receive (in_drawing (toJSON sender)))
      drawn_after_clear in
  toJSON s' = toJSON sender.
Proof.
  intros sender s'.
  assert (Hfaithful :
            Forall (fun o => exists o',
                        enliven (L := example_library) (toObject o)
                        = Normal o' /\ toObject o' = toObject o)
              (objects sender)).
  { vm_compute. constructor; [|constructor].
    eexists. split; reflexivity. }
  exact (proj1 (@snapshot_round_trip example_library sender drawn_after_clear
                  Hfaithful)).
Defined.

Lemma drawing_is_rebroadcast_witness :
  let sender := step (L := example_library) ClickRectangle client0 in
  outbox (L := example_library) (Receive (in_drawing (toJSON sender)))
    drawn_after_clear =
  [object_removed "R1" (Some "uuid-1");
   object_added "R1"
     {| type := "Rect"; id := Some "uuid-2"; props := props first_rect |}].
Proof.
  intros sender.
  assert (Hrebuilt :
            enlivenObjects (L := example_library) (snap_objects (toJSON sender))
            = Normal (snap_objects (toJSON sender)))
    by (vm_compute; reflexivity).
  assert (Hobjects : snap_objects (toJSON sender) <> [])
    by (vm_compute; discriminate).
  destruct (@drawing_is_rebroadcast example_library drawn_after_clear
              (toJSON sender) _ Hrebuilt Hobjects) as (Hout & _).
  rewrite Hout. vm_compute. reflexivity.
Defined.

(** *** The doubled emit, end to end *)

(** The receiver handles the messages of a peer as they are relayed, one
    after the other, each reconstruction settling before the next message
    is handled. *)
Definition handle_relayed {L : Library} (ms : list Message) (s : Whiteboard)
  : Whiteboard :=
  fold_left
    (fun st m =>
       match relayed m with
       | Some (in_object_added obj) => on_object_added obj st
       | Some i => state_of (receive i st)
       | None => st
       end)
    ms s.

(** The rectangle [addRectangle] builds in state [s]. *)
Definition new_rect {L : Library} (s : Whiteboard) : FabricObject :=
  {| type := "Rect"; id := Some (uuidv4 (uuids s));
     props := [("fill", VStr (color s)); ("width", VNum 100);
               ("height", VNum 100);
               ("left", VNum (width s / 2 - 50));
               ("top", VNum (height s / 2 - 50))] |}.

Section Convergence.

Context {L : Library}.

Lemma addRectangle_exact (s : Whiteboard) :
  truthy (Some (uuidv4 (uuids s))) = true ->
  _isRemote s = false ->
  objects (step ClickRectangle s) = objects s ++ [new_rect s] /\
  outbox ClickRectangle s =
  [object_added (roomId s) (new_rect s); object_added (roomId s) (new_rect s)].
Proof.
  intros Hu Hg.
  assert (E : step ClickRectangle s =
              emit (object_added (roomId s) (new_rect s))
                (emit (object_added (roomId s) (new_rect s))
                   (set_objects (objects s ++ [new_rect s])
                      (set_uuids (S (uuids s)) (setTool select s))))).
  { unfold step, addRectangle, handleToolChange, fresh, canvas_add, assignId,
      emitAdded.
    cbn [uuids setTool set_uuids id color width height].
    rewrite Hu. cbn [negb]. cbn [_isRemote set_objects set_uuids setTool].
    rewrite Hg. reflexivity. }
  split.
  - rewrite E. reflexivity.
  - apply outbox_of. rewrite E. cbn [emitted emit set_objects set_uuids setTool].
    rewrite <- app_assoc. reflexivity.
Qed.

Lemma on_object_added_objects (s : Whiteboard) (obj : FabricObject)
    (klass : Klass) :
  getClass (type obj) = Normal (Some klass) ->
  fromObject klass obj = Normal obj ->
  truthy (id obj) = true ->
  objects (on_object_added (Some obj) s) =
  (if existsb (fun o => id_eqb (id o) (id obj)) (objects s)
   then objects s else objects s ++ [obj]) /\
  emitted (on_object_added (Some obj) s) = emitted s.
Proof.
  intros Hc Hf Hi. rewrite (on_object_added_found s obj Hc), Hf. split.
  - rewrite resume_objects by exact Hi. reflexivity.
  - unfold on_object_added_resume.
    destruct (negb (existsb _ _)); [|reflexivity].
    cbn [emitted set_isRemote].
    rewrite canvas_add_emitted. reflexivity.
Qed.

(** X16.  The doubled announcement of a new rectangle is absorbed.  The
    sender, with the gate open, presses Rectangle; a receiver that can
    reconstruct the rectangle and does not hold its identifier handles both
    copies of the Operation: it ends with exactly the sender's rectangle
    appended to its canvas, once, and sends nothing back. *)
Theorem doubled_add_is_absorbed (a b : Whiteboard) (klass : Klass)
    (Huuid : truthy (Some (uuidv4 (uuids a))) = true)
    (Hgate : _isRemote a = false)
    (Hclass : getClass "Rect" = Normal (Some klass))
    (Hrebuild : fromObject klass (new_rect a) = Normal (new_rect a))
    (Hnew : existsb (fun o => id_eqb (id o) (Some (uuidv4 (uuids a))))
              (objects b) = false) :
  objects (step ClickRectangle a) = objects a ++ [new_rect a] /\
  objects (handle_relayed (outbox ClickRectangle a) b) =
    objects b ++ [new_rect a] /\
  emitted (handle_relayed (outbox ClickRectangle a) b) = emitted b.
Proof.
  destruct (addRectangle_exact a Huuid Hgate) as [Ho Hout].
  split; [exact Ho|]. rewrite Hout. unfold handle_relayed.
  cbn [fold_left relayed].
  destruct (@on_object_added_objects b (new_rect a) klass Hclass Hrebuild Huuid)
    as [O1 E1].
  cbn [id new_rect] in O1. rewrite Hnew in O1.
  destruct (@on_object_added_objects (on_object_added (Some (new_rect a)) b)
              (new_rect a) klass Hclass Hrebuild Huuid) as [O2 E2].
  rewrite O1 in O2. cbn [id new_rect] in O2.
  rewrite existsb_app in O2. cbn [existsb id] in O2.
  rewrite id_eqb_refl, orb_true_r in O2. cbn [orb] in O2.
  split; [exact O2 | now rewrite E2, E1].
Qed.

Lemma count_id_zero_existsb (x : option string) (l : list FabricObject) :
  count_id x l = 0 -> existsb (fun o => id_eqb (id o) x) l = false.
Proof.
  intros H. rewrite count_id_existsb, H. reflexivity.
Qed.

(** X17.  The doubled announcement of an erasure is absorbed.  A client in
    eraser mode, with the gate open, clicks an object; a peer that holds
    exactly one object with that identifier handles both copies of the
    removal: the first takes the object off, the second finds nothing, and
    the peer ends with one object less and none with that identifier. *)
Theorem doubled_remove_is_absorbed (b a : Whiteboard) (i : nat)
    (t : FabricObject) (x y : Z)
    (Htool : tool b = eraser)
    (Hgate : _isRemote b = false)
    (Ht : nth_error (objects b) i = Some t)
    (Hone : count_id (id t) (objects a) = 1) :
  let a' := handle_relayed (outbox (MouseDown (Some i) x y) b) a in
  objects (step (MouseDown (Some i) x y) b) = remove_at i (objects b) /\
  count_id (id t) (objects a') = 0 /\
  S (List.length (objects a')) = List.length (objects a) /\
  emitted a' = emitted a.
Proof.
  cbv zeta.
  destruct (handleEraserClick_emitted _ _ Ht) as [Ho He].
  assert (Hout : outbox (MouseDown (Some i) x y) b =
                 [object_removed (roomId b) (id t);
                  object_removed (roomId b) (id t)]).
  { apply outbox_of. unfold step. rewrite Htool, He, Hgate. reflexivity. }
  split; [unfold step; rewrite Htool; exact Ho|].
  rewrite Hout. unfold handle_relayed. cbn [fold_left relayed].
  assert (Hsome : existsb (fun o => id_eqb (id o) (id t)) (objects a) = true).
  { rewrite count_id_existsb, Hone. reflexivity. }
  destruct (find_index_exists _ _ Hsome) as (k & F).
  destruct (find_index_some _ _ F) as (u & Hu & Pu & _).
  assert (E1 : state_of (receive (in_object_removed (id t)) a) =
               set_isRemote false (canvas_remove k (set_isRemote true a))).
  { simpl. unfold on_object_removed. cbn [objects set_isRemote].
    rewrite F. reflexivity. }
  assert (O1 : objects (state_of (receive (in_object_removed (id t)) a)) =
               remove_at k (objects a)).
  { rewrite E1. cbn [objects set_isRemote].
    now rewrite canvas_remove_objects. }
  assert (C1 : count_id (id t)
                 (objects (state_of (receive (in_object_removed (id t)) a)))
               = 0).
  { rewrite O1.
    pose proof (@count_remove_at (id t) (objects a) k u Hu Pu) as H. lia. }
  assert (E2 : objects (state_of (receive (in_object_removed (id t))
                 (state_of (receive (in_object_removed (id t)) a)))) =
               objects (state_of (receive (in_object_removed (id t)) a))).
  { remember (state_of (receive (in_object_removed (id t)) a)) as a1.
    simpl. unfold on_object_removed. cbn [objects set_isRemote].
    rewrite (find_index_none _ _ (count_id_zero_existsb _ _ C1)).
    reflexivity. }
  split; [now rewrite E2|]. split.
  - rewrite E2, O1. eapply length_remove_at. exact Hu.
  - now rewrite !removed_emitted.
Qed.

End Convergence.

Lemma example_rect_class :
  getClass (Library := example_library) "Rect" = Normal (Some plain_class).
Proof.
  reflexivity.
Qed.

Lemma doubled_add_is_absorbed_witness :
  objects (handle_relayed (L := example_library)
             (outbox (L := example_library) ClickRectangle client0)
             drawn_after_clear) =
  objects drawn_after_clear ++ [new_rect (L := example_library) client0].
Proof.
  assert (Huuid : truthy (Some (uuidv4 (Library := example_library)
                                  (uuids client0))) = true)
    by reflexivity.
  assert (Hgate : _isRemote client0 = false) by reflexivity.
  assert (Hnew : existsb
                   (fun o => id_eqb (id o)
                               (Some (uuidv4 (Library := example_library)
                                        (uuids client0))))
                   (objects drawn_after_clear) = false)
    by (vm_compute; reflexivity).
  exact (proj1 (proj2 (@doubled_add_is_absorbed example_library client0
                         drawn_after_clear plain_class Huuid Hgate
                         example_rect_class eq_refl Hnew))).
Defined.

(** The peer of the example in eraser mode, holding the rectangle of
    [drawn_after_clear]. *)
Definition erasing_peer : Whiteboard :=
  step (L := example_library) (ToolChange eraser) drawn_after_clear.

Lemma doubled_remove_is_absorbed_witness :
  let a' :=
    handle_relayed (L := example_library)
      (outbox (L := example_library) (MouseDown (Some 0) 0 0) erasing_peer)
      drawn_after_clear in
  count_id (Some "uuid-1") (objects a') = 0 /\
  S (List.length (objects a')) = List.length (objects drawn_after_clear).
Proof.
  intros a'.
  assert (Htool : tool erasing_peer = eraser) by (vm_compute; reflexivity).
  assert (Hgate : _isRemote erasing_peer = false)
    by (vm_compute; reflexivity).
  assert (Ht : nth_error (objects erasing_peer) 0 =
               Some {| type := "Rect"; id := Some "uuid-1";
                       props := [("fill", VStr "#000000");
                                 ("width", VNum 100); ("height", VNum 100);
                                 ("left", VNum 350); ("top", VNum 250)] |})
    by (vm_compute; reflexivity).
  assert (Hone : count_id (Some "uuid-1") (objects drawn_after_clear) = 1)
    by (vm_compute; reflexivity).
  destruct (@doubled_remove_is_absorbed example_library erasing_peer
              drawn_after_clear 0 _ 0%Z 0%Z Htool Hgate Ht Hone)
    as (_ & Hc & Hl & _).
  split; [exact Hc | exact Hl].
Defined.

(** *** Strokes, and the command of undo and redo *)

(** The path a finished stroke puts on the canvas in state [s]. *)
Definition new_path {L : Library} (ps : list (string * Value))
    (s : Whiteboard) : FabricObject :=
  {| type := "Path"; id := Some (uuidv4 (uuids s)); props := ps |}.

Section Strokes.

Context {L : Library}.

(** X18.  A freehand stroke arrives on the canvas without identifier.  The
    [assignId] listener runs before [emitAdded], so with the gate open the
    stroke is stored and announced with a fresh identifier, and it is
    announced once, not twice as the shapes of the buttons are. *)
Theorem stroke_is_identified_then_announced (s : Whiteboard)
    (ps : list (string * Value))
    (Htool : tool s = pen) (Hgate : _isRemote s = false) :
  objects (step (Stroke ps) s) = objects s ++ [new_path ps s] /\
  outbox (Stroke ps) s = [object_added (roomId s) (new_path ps s)] /\
  uuids (step (Stroke ps) s) = S (uuids s).
Proof.
  assert (E : step (Stroke ps) s =
              emit (object_added (roomId s) (new_path ps s))
                (set_objects (objects s ++ [new_path ps s])
                   (set_uuids (S (uuids s)) s))).
  { unfold step. rewrite Htool.
    unfold draw_path, canvas_add, assignId, emitAdded.
    cbn [id truthy negb snd _isRemote set_objects set_uuids].
    rewrite Hgate. reflexivity. }
  split; [rewrite E; reflexivity|]. split.
  - apply outbox_of. rewrite E. reflexivity.
  - rewrite E. reflexivity.
Qed.

(** X19.  Called without a truthy [remote], undo and redo send their
    ['canvas-action'] whether or not they did anything: the emit stands
    outside the guard, so in every reachable state the command goes out,
    once and as the only message, also when the history holds a single
    snapshot or the redo stack is empty. *)
Theorem command_is_sent_regardless (remote : Arg) (s : Whiteboard)
    (Hreach : reachable s)
    (Hlocal : arg_truthy remote = false) :
  emitted (handleUndo remote s) =
    emitted s ++ [canvas_action (roomId s) undo] /\
  emitted (handleRedo remote s) =
    emitted s ++ [canvas_action (roomId s) redo].
Proof.
  destruct (reachable_blank_history Hreach) as (Hb & _ & Hr).
  split.
  - rewrite (handleUndo_reached remote s Hb). cbv zeta.
    rewrite Hlocal. cbn [negb emitted emit].
    destruct (1 <? List.length (history s)); [|reflexivity].
    cbn [emitted roomId set_backgroundColor].
    rewrite clear_under_gate_emitted.
    destruct (frame_canvas_clear (set_isRemote true s)) as (_ & -> & _).
    reflexivity.
  - rewrite (handleRedo_reached remote s Hr), Hlocal. reflexivity.
Qed.

End Strokes.

Lemma stroke_is_identified_then_announced_witness :
  outbox (L := example_library) (Stroke [("stroke", VStr "#000000")]) client0
  = [object_added "R1"
       {| type := "Path"; id := Some "uuid-0";
          props := [("stroke", VStr "#000000")] |}].
Proof.
  assert (Htool : tool client0 = pen) by reflexivity.
  assert (Hgate : _isRemote client0 = false) by reflexivity.
  exact (proj1 (proj2 (@stroke_is_identified_then_announced example_library
                         client0 [("stroke", VStr "#000000")] Htool Hgate))).
Defined.

Lemma command_is_sent_regardless_witness :
  List.length (history client0) = 1 /\
  emitted (handleUndo (L := example_library) NoArg client0) =
  emitted client0 ++ [canvas_action "R1" undo].
Proof.
  split; [reflexivity|].
  assert (Hreach : reachable (L := example_library) client0)
    by apply reach_init.
  assert (Hlocal : arg_truthy NoArg = false) by reflexivity.
  exact (proj1 (@command_is_sent_regardless example_library NoArg client0
                  Hreach Hlocal)).
Defined.

(** * The tool effect on the drawing surface *)

(** The settings of the canvas the tool effect writes: drawing mode, the
    brush (colour and width), group selection, the cursor, and for every
    object on the canvas whether it is selectable and whether it receives
    events. *)
Record Surface := {
  isDrawingMode : bool;
  freeDrawingBrush : string * Z;
  selection : bool;
  defaultCursor : string;
  flags : list (bool * bool)
}.

(** The effect that runs when the tool or the colour changes. *)
Definition toolEffect (t : Tool) (color : string) (m : Surface) : Surface :=
  match t with
  | pen =>
      {| isDrawingMode := true; freeDrawingBrush := (color, 2%Z);
         selection := true; defaultCursor := "default";
         flags := map (fun _ => (true, true)) (flags m) |}
  | eraser =>
      {| isDrawingMode := false; freeDrawingBrush := freeDrawingBrush m;
         selection := false; defaultCursor := "pointer";
         flags := map (fun _ => (false, true)) (flags m) |}
  | text =>
      {| isDrawingMode := false; freeDrawingBrush := freeDrawingBrush m;
         selection := true; defaultCursor := "text";
         flags := map (fun _ => (true, true)) (flags m) |}
  | select =>
      {| isDrawingMode := false; freeDrawingBrush := freeDrawingBrush m;
         selection := selection m; defaultCursor := defaultCursor m;
         flags := flags m |}
  end.

Lemma map_const_twice (A B : Type) (c : B) (l : list A) :
  map (fun _ => c) (map (fun _ : A => c) l) = map (fun _ => c) l.
Proof.
  induction l as [|a l IH]; simpl; [reflexivity | now rewrite IH].
Qed.

Lemma Forall_map_const (A B : Type) (c : B) (l : list A) :
  Forall (eq c) (map (fun _ => c) l).
Proof.
  induction l as [|a l IH]; simpl; constructor; auto.
Qed.

(** X20.  The tool effect.  Drawing mode is on for the pen and for no other
    tool; running the effect again changes nothing; and the branch taken for
    the select tool, which the Rectangle and Circle buttons switch to, only
    turns drawing mode off: after the eraser it leaves group selection off,
    the pointer cursor, and every object that was on the canvas
    unselectable. *)
Theorem select_keeps_eraser_settings (t : Tool) (c c' : string)
    (m : Surface) :
  isDrawingMode (toolEffect t c m) =
    match t with pen => true | _ => false end /\
  toolEffect t c (toolEffect t c m) = toolEffect t c m /\
  let m' := toolEffect select c' (toolEffect eraser c m) in
  isDrawingMode m' = false /\ selection m' = false /\
  defaultCursor m' = "pointer" /\
  List.length (flags m') = List.length (flags m) /\
  Forall (eq (false, true)) (flags m').
Proof.
  split; [destruct t; reflexivity|]. split.
  - destruct t; unfold toolEffect; cbn [flags freeDrawingBrush selection
                                         defaultCursor];
      rewrite ?map_const_twice; reflexivity.
  - cbv zeta. unfold toolEffect.
    cbn [isDrawingMode selection defaultCursor flags].
    repeat split.
    + apply length_map.
    + apply Forall_map_const.
Qed.

(** * The landing page *)

Module Home.

(** The five inputs of the form. *)
Record Form := {
  room : string;
  type : string;
  password : string;
  username : string;
  role : string
}.

(** The page and the socket it shares with every render: the messages sent,
    the listeners registered so far (a ['room-created'] listener keeps the
    form of the render that registered it), the navigations and the alerts
    raised. *)
Record State := {
  form : Form;
  sent : list (string * string * string);
  room_created : list Form;
  room_error : nat;
  pushed : list string;
  alerted : list string
}.

(** [if (room)]: a string is truthy when it is not empty. *)
Definition nonempty (s : string) : bool :=
  match s with
  | EmptyString => false
  | _ => true
  end.

(** The address both buttons navigate to. *)
Definition url (f : Form) : string :=
  String.append "/"
    (String.append (room f)
       (String.append "?role="
          (String.append (role f)
             (String.append "&username="
                (String.append (username f)
                   (String.append "&password=" (password f))))))).

Definition with_form (f : Form) (s : State) : State :=
  {| form := f; sent := sent s; room_created := room_created s;
     room_error := room_error s; pushed := pushed s; alerted := alerted s |}.

Definition handleCreate (s : State) : State :=
  if nonempty (room (form s)) then
    {| form := form s;
       sent := sent s ++ [(room (form s), type (form s), password (form s))];
       room_created := room_created s ++ [form s];
       room_error := S (room_error s);
       pushed := pushed s; alerted := alerted s |}
  else s.

Definition handleJoin (s : State) : State :=
  if nonempty (room (form s)) then
    {| form := form s; sent := sent s; room_created := room_created s;
       room_error := room_error s;
       pushed := pushed s ++ [url (form s)]; alerted := alerted s |}
  else s.

Inductive Event :=
| SetRoom (v : string)
| SetType (v : string)
| SetPassword (v : string)
| SetUsername (v : string)
| SetRole (v : string)
| ClickCreate
| ClickJoin
| RoomCreated
| RoomError (msg : string).

(** One turn of the page's event loop.  An incoming message runs every
    listener registered under its name, in registration order. *)
Definition step (e : Event) (s : State) : State :=
  let f := form s in
  match e with
  | SetRoom v =>
      with_form {| room := v; type := type f; password := password f;
                   username := username f; role := role f |} s
  | SetType v =>
      with_form {| room := room f; type := v; password := password f;
                   username := username f; role := role f |} s
  | SetPassword v =>
      with_form {| room := room f; type := type f; password := v;
                   username := username f; role := role f |} s
  | SetUsername v =>
      with_form {| room := room f; type := type f; password := password f;
                   username := v; role := role f |} s
  | SetRole v =>
      with_form {| room := room f; type := type f; password := password f;
                   username := username f; role := v |} s
  | ClickCreate => handleCreate s
  | ClickJoin => handleJoin s
  | RoomCreated =>
      {| form := form s; sent := sent s; room_created := room_created s;
         room_error := room_error s;
         pushed := pushed s ++ map url (room_created s);
         alerted := alerted s |}
  | RoomError msg =>
      {| form := form s; sent := sent s; room_created := room_created s;
         room_error := room_error s; pushed := pushed s;
         alerted := alerted s ++ repeat msg (room_error s) |}
  end.

Definition initial : State :=
  {| form := {| room := ""; type := "public"; password := "";
                username := ""; role := "editor" |};
     sent := []; room_created := []; room_error := 0;
     pushed := []; alerted := [] |}.

Definition run (es : list Event) (s : State) : State :=
  fold_left (fun st e => step e st) es s.

(** What holds of the page after any run. *)
Definition consistent (s : State) : Prop :=
  map (fun f => (room f, type f, password f)) (room_created s) = sent s /\
  room_error s = List.length (sent s) /\
  Forall (fun f => nonempty (room f) = true) (room_created s) /\
  Forall (fun u => exists f, u = url f /\ nonempty (room f) = true)
    (pushed s).

Lemma step_consistent (e : Event) (s : State) :
  consistent s -> consistent (step e s).
Proof.
  unfold consistent. intros (Hs & He & Hr & Hp).
  destruct e; simpl; auto.
  - unfold handleCreate. destruct (nonempty (room (form s))) eqn:N; auto.
    simpl. repeat split.
    + rewrite map_app, Hs. reflexivity.
    + rewrite length_app, He. simpl. lia.
    + apply Forall_app. split; [exact Hr|]. constructor; auto.
    + exact Hp.
  - unfold handleJoin. destruct (nonempty (room (form s))) eqn:N; auto.
    simpl. repeat split; auto.
    apply Forall_app. split; [exact Hp|]. constructor; [|constructor].
    exists (form s). auto.
  - repeat split; auto.
    apply Forall_app. split; [exact Hp|].
    rewrite Forall_forall in *. intros u Hu.
    apply in_map_iff in Hu. destruct Hu as (f & <- & Hf).
    exists f. auto.
Qed.

Lemma run_consistent (es : list Event) (s : State) :
  consistent s -> consistent (run es s).
Proof.
  unfold run. revert s. induction es as [|e es IH]; intros s H; simpl;
    [exact H|].
  apply IH. apply step_consistent. exact H.
Qed.

(** X21.  Each press of Create Room with a room name sends one
    ['create-room'] and registers one more pair of listeners on the shared
    socket, and none is ever removed.  So after any use of the page, one
    ['room-created'] from the server navigates once per ['create-room'] sent
    so far, to the address each press had captured, and one ['room-error']
    raises as many alerts.  Neither button sends or navigates with an empty
    room name. *)
Theorem listeners_accumulate (es : list Event) (msg : string) :
  let s := run es initial in
  map (fun f => (room f, type f, password f)) (room_created s) = sent s /\
  pushed (step RoomCreated s) = pushed s ++ map url (room_created s) /\
  List.length (pushed (step RoomCreated s)) =
    List.length (pushed s) + List.length (sent s) /\
  alerted (step (RoomError msg) s) =
    alerted s ++ repeat msg (List.length (sent s)) /\
  Forall (fun p => nonempty (fst (fst p)) = true) (sent s) /\
  Forall (fun u => exists f, u = url f /\ nonempty (room f) = true)
    (pushed s).
Proof.
  cbv zeta.
  assert (H : consistent (run es initial)).
  { apply run_consistent. unfold consistent, initial. simpl.
    repeat split; constructor. }
  destruct H as (Hs & He & Hr & Hp).
  split; [exact Hs|]. split; [reflexivity|]. split.
  { simpl. rewrite length_app, length_map, <- Hs, length_map. reflexivity. }
  split; [simpl; now rewrite He|]. split; [|exact Hp].
  rewrite <- Hs. rewrite Forall_forall in *. intros p Hin.
  apply in_map_iff in Hin. destruct Hin as (f & <- & Hf). simpl. auto.
Qed.

End Home.

(** A room name that is taken, a second try with another name, then the
    server's confirmation: two navigations, the first to the room that was
    refused. *)
Example two_creates_two_navigations :
  let s :=
    Home.run [Home.SetRoom "a"; Home.ClickCreate; Home.RoomError "taken";
              Home.SetRoom "b"; Home.ClickCreate; Home.RoomCreated]
      Home.initial in
  Home.pushed s =
    ["/a?role=editor&username=&password=";
     "/b?role=editor&username=&password="] /\
  Home.alerted s = ["taken"].
Proof.
  vm_compute. split; reflexivity.
Qed.
